(** * JengaPix: the request/response translation pipeline of the Gemini service

    A shallow embedding of [services/geminiService.ts]: the image encoder
    ([fileToPart]), the instruction text compiled for every operation, the
    response classifier ([handleApiResponse]) and the operation facades.

    Conventions of the embedding.
    - A JavaScript string is a [string]: a sequence of code units, of which the
      model keeps those below 256.
    - An optional property [p?: T] is an [option T]; [undefined] is [None].
    - A call either returns a value or throws one: [Completion].
    - An [async] function is the tree of its awaits on the outside world:
      [Async].
    - Every facade builds its client from the API key of the environment; the
      construction is taken to succeed and the client is the outside world.
    - [console.log] and [console.error] have no effect on the result of a call
      and are left out. *)

From Stdlib Require Import String Ascii List Bool Arith ZArith Lia.
From Stdlib Require Import DecimalString.
Import ListNotations.

Open Scope list_scope.
Open Scope string_scope.

(** ** JavaScript primitives used by the service *)

Module Js.

Definition dquote : string := String (ascii_of_nat 34) EmptyString.
Definition newline : string := String (ascii_of_nat 10) EmptyString.

(** Truthiness of a value of type [string | undefined]. *)
Definition truthy (v : option string) : bool :=
  match v with
  | Some (String _ _) => true
  | _ => false
  end.

(** Truthiness of a value of type [boolean | undefined]. *)
Definition truthyb (v : option bool) : bool :=
  match v with
  | Some true => true
  | _ => false
  end.

(** A value of type [string | undefined] inside a template literal. *)
Definition tpl (v : option string) : string :=
  match v with
  | Some s => s
  | None => "undefined"
  end.

(** [v || d] for a string default [d]. *)
Definition orElse (v : option string) (d : string) : string :=
  if truthy v then tpl v else d.

(** Optional chaining [o?.f]. *)
Definition chain {A B : Type} (o : option A) (f : A -> option B) : option B :=
  match o with
  | Some a => f a
  | None => None
  end.

(** [xs?.[0]]. *)
Definition first {A : Type} (xs : option (list A)) : option A :=
  match xs with
  | Some (x :: _) => Some x
  | _ => None
  end.

(** WhiteSpace and LineTerminator code units below 256: TAB, LF, VT, FF, CR,
    SP and NBSP. *)
Definition isWhiteSpace (c : ascii) : bool :=
  let n := nat_of_ascii c in
  ((9 <=? n)%nat && (n <=? 13)%nat) || (n =? 32)%nat || (n =? 160)%nat.

Fixpoint trimStart (s : string) : string :=
  match s with
  | EmptyString => EmptyString
  | String c s' => if isWhiteSpace c then trimStart s' else s
  end.

Fixpoint trimEnd (s : string) : string :=
  match s with
  | EmptyString => EmptyString
  | String c s' =>
      match trimEnd s' with
      | EmptyString => if isWhiteSpace c then EmptyString else String c EmptyString
      | t => String c t
      end
  end.

(** [String.prototype.trim]. *)
Definition trim (s : string) : string := trimEnd (trimStart s).

(** [String.prototype.startsWith]. *)
Fixpoint startsWith (s p : string) {struct p} : bool :=
  match p, s with
  | EmptyString, _ => true
  | String a p', String b s' => Ascii.eqb a b && startsWith s' p'
  | String _ _, EmptyString => false
  end.

(** [String.prototype.includes]. *)
Fixpoint includes (s p : string) : bool :=
  startsWith s p ||
  match s with
  | EmptyString => false
  | String _ s' => includes s' p
  end.

(** [Array.prototype.join]. *)
Fixpoint join (sep : string) (xs : list string) : string :=
  match xs with
  | [] => EmptyString
  | [x] => x
  | x :: xs' => x ++ sep ++ join sep xs'
  end.

End Js.

Notation "o ?. f" := (Js.chain o f) (at level 25, left associativity).

(** ** Values thrown and completions *)

(** What a [throw] (or a rejected promise) carries: an instance of [Error] with
    its message, or some other value, such as the [ProgressEvent] the
    [FileReader] hands to [onerror]. *)
Inductive Thrown : Type :=
| Error (message : string)
| NotAnError (description : string).

Inductive Completion (A : Type) : Type :=
| Return (a : A)
| Throw (e : Thrown).

Arguments Return {A} a.
Arguments Throw {A} e.

(** ** The response of [generateContent] *)

Record Blob : Type := { mimeType : option string; data : option string }.

Record Part : Type := { part_text : option string; inlineData : option Blob }.

Record Content : Type := { parts : option (list Part) }.

Record Candidate : Type := {
  content : option Content;
  finishReason : option string
}.

Record PromptFeedback : Type := {
  blockReason : option string;
  blockReasonMessage : option string
}.

(** [text] is the accessor [response.text] of the SDK; the service reads it as
    a property of type [string | undefined]. *)
Record GenerateContentResponse : Type := {
  promptFeedback : option PromptFeedback;
  candidates : option (list Candidate);
  text : option string
}.

(** ** The response classifier *)

(** The loop [for (const part of parts) if (part.inlineData) return ...]:
    the inline data of the first part that has some. *)
Fixpoint firstInlineData (ps : list Part) : option Blob :=
  match ps with
  | [] => None
  | part :: ps' =>
      match inlineData part with
      | Some b => Some b
      | None => firstInlineData ps'
      end
  end.

Definition responseParts (response : GenerateContentResponse) : option (list Part) :=
  Js.first (candidates response) ?. content ?. parts.

Definition handleApiResponse (response : GenerateContentResponse) (context : string)
  : Completion string :=
  (* 1. prompt blocking *)
  if Js.truthy (promptFeedback response ?. blockReason) then
    let blockReason := promptFeedback response ?. blockReason in
    let blockReasonMessage := promptFeedback response ?. blockReasonMessage in
    let errorMessage :=
      "Request was blocked. Reason: " ++ Js.tpl blockReason ++ ". "
        ++ Js.orElse blockReasonMessage EmptyString in
    Throw (Error errorMessage)
  else
    (* 2. the first part with image data *)
    match
      match responseParts response with
      | Some ps => firstInlineData ps
      | None => None
      end
    with
    | Some b =>
        Return ("data:" ++ Js.tpl (mimeType b) ++ ";base64," ++ Js.tpl (data b))
    | None =>
        (* 3. no image: other reasons *)
        let finishReason := Js.first (candidates response) ?. finishReason in
        if Js.truthy finishReason && negb (Js.tpl finishReason =? "STOP")%string then
          let errorMessage :=
            "Image generation for " ++ context ++ " stopped unexpectedly. Reason: "
              ++ Js.tpl finishReason ++ ". This often relates to safety settings." in
          Throw (Error errorMessage)
        else
          let textFeedback := option_map Js.trim (text response) in
          let errorMessage :=
            "The AI model did not return an image for the " ++ context ++ ". "
              ++ (if Js.truthy textFeedback
                  then "The model responded with text: " ++ Js.dquote
                         ++ Js.tpl textFeedback ++ Js.dquote
                  else "This can happen due to safety filters or if the request is too complex. Please try rephrasing your prompt to be more direct.") in
          Throw (Error errorMessage)
    end.

(** ** Requests and responses of the remote service *)

Inductive Modality : Type := IMAGE | TEXT.

Record GenerateContentConfig : Type := {
  responseModalities : list Modality
}.

Record GenerateContentParameters : Type := {
  model : string;
  contents : Content;
  config : option GenerateContentConfig
}.

Record GenerateImagesConfig : Type := {
  numberOfImages : nat;
  outputMimeType : string;
  aspectRatio : string
}.

Record GenerateImagesParameters : Type := {
  images_model : string;
  images_prompt : string;
  images_config : GenerateImagesConfig
}.

Record Image : Type := { imageBytes : option string }.

Record GeneratedImage : Type := { image : option Image }.

Record GenerateImagesResponse : Type := {
  generatedImages : option (list GeneratedImage)
}.

(** The image file handed over by the caller. The service never looks inside
    it: the only thing it does with a file is to give it to a [FileReader]. *)
Record File : Type := { fileName : string }.

(** ** Asynchronous computations

    A facade is a sequence of awaits on the outside world: the [FileReader]
    and the two entry points of [ai.models]. An [Async] computation is the
    tree of these interactions; every await receives the completion of the
    awaited promise. *)

Inductive Async (A : Type) : Type :=
| Done (c : Completion A)
| AwaitReadAsDataURL (file : File) (k : Completion string -> Async A)
| AwaitGenerateContent (request : GenerateContentParameters)
    (k : Completion GenerateContentResponse -> Async A)
| AwaitGenerateImages (request : GenerateImagesParameters)
    (k : Completion GenerateImagesResponse -> Async A).

Arguments Done {A} c.
Arguments AwaitReadAsDataURL {A} file k.
Arguments AwaitGenerateContent {A} request k.
Arguments AwaitGenerateImages {A} request k.

(** [await p; rest]: a rejected promise throws at the await. *)
Fixpoint andThen {A B : Type} (m : Async A) (rest : A -> Async B) : Async B :=
  match m with
  | Done (Return a) => rest a
  | Done (Throw e) => Done (Throw e)
  | AwaitReadAsDataURL file k => AwaitReadAsDataURL file (fun c => andThen (k c) rest)
  | AwaitGenerateContent request k =>
      AwaitGenerateContent request (fun c => andThen (k c) rest)
  | AwaitGenerateImages request k =>
      AwaitGenerateImages request (fun c => andThen (k c) rest)
  end.

(** [try { m } catch (err) { handler }]. *)
Fixpoint tryCatch {A : Type} (m : Async A) (handler : Thrown -> Async A) : Async A :=
  match m with
  | Done (Return a) => Done (Return a)
  | Done (Throw e) => handler e
  | AwaitReadAsDataURL file k => AwaitReadAsDataURL file (fun c => tryCatch (k c) handler)
  | AwaitGenerateContent request k =>
      AwaitGenerateContent request (fun c => tryCatch (k c) handler)
  | AwaitGenerateImages request k =>
      AwaitGenerateImages request (fun c => tryCatch (k c) handler)
  end.

Notation "'await' x ':=' m 'in' rest" := (andThen m (fun x => rest))
  (at level 10, x name, m at level 100, rest at level 200).

Definition readAsDataURL (file : File) : Async string :=
  AwaitReadAsDataURL file Done.

Definition generateContent (request : GenerateContentParameters)
  : Async GenerateContentResponse :=
  AwaitGenerateContent request Done.

Definition generateImages (request : GenerateImagesParameters)
  : Async GenerateImagesResponse :=
  AwaitGenerateImages request Done.

(** The outside world: what reading a file yields and what the remote model
    answers to a request. *)
Record World : Type := {
  fileReader : File -> Completion string;
  models_generateContent : GenerateContentParameters -> Completion GenerateContentResponse;
  models_generateImages : GenerateImagesParameters -> Completion GenerateImagesResponse
}.

Fixpoint run {A : Type} (w : World) (m : Async A) : Completion A :=
  match m with
  | Done c => c
  | AwaitReadAsDataURL file k => run w (k (fileReader w file))
  | AwaitGenerateContent request k => run w (k (models_generateContent w request))
  | AwaitGenerateImages request k => run w (k (models_generateImages w request))
  end.

(** The requests a computation sends to the remote model, in order. *)
Inductive Request : Type :=
| ContentRequest (request : GenerateContentParameters)
| ImagesRequest (request : GenerateImagesParameters).

Fixpoint requests {A : Type} (w : World) (m : Async A) : list Request :=
  match m with
  | Done _ => []
  | AwaitReadAsDataURL file k => requests w (k (fileReader w file))
  | AwaitGenerateContent request k =>
      ContentRequest request :: requests w (k (models_generateContent w request))
  | AwaitGenerateImages request k =>
      ImagesRequest request :: requests w (k (models_generateImages w request))
  end.

(** ** The image encoder *)

Module Url.

(** [s.split(sep)] for a separator of one code unit. *)
Fixpoint split (sep : ascii) (s : string) : list string :=
  match s with
  | EmptyString => [EmptyString]
  | String c s' =>
      if Ascii.eqb c sep then EmptyString :: split sep s'
      else
        match split sep s' with
        | seg :: segs => String c seg :: segs
        | [] => [String c EmptyString]
        end
  end.

(** Line terminators, which [.] in a regular expression does not match. *)
Definition isLineTerminator (c : ascii) : bool :=
  Ascii.eqb c (ascii_of_nat 10) || Ascii.eqb c (ascii_of_nat 13).

(** The rest of [/:(.*?);/] once [:] has been matched: the shortest run of
    code units other than line terminators that is followed by [;]. *)
Fixpoint lazyDotsSemicolon (s : string) : option string :=
  match s with
  | EmptyString => None
  | String c s' =>
      if Ascii.eqb c ";" then Some EmptyString
      else if isLineTerminator c then None
      else option_map (String c) (lazyDotsSemicolon s')
  end.

(** [s.match(/:(.*?);/)], as group 1 of the leftmost match; [None] when the
    regular expression does not match. *)
Fixpoint matchMime (s : string) : option string :=
  match s with
  | EmptyString => None
  | String c s' =>
      if Ascii.eqb c ":" then
        match lazyDotsSemicolon s' with
        | Some group => Some group
        | None => matchMime s'
        end
      else matchMime s'
  end.

End Url.

(** What [fileToPart] does with the data URL once the reader has loaded it. *)
Definition partOfDataUrl (dataUrl : string) : Completion Part :=
  let arr := Url.split "," dataUrl in
  if (List.length arr <? 2)%nat then Throw (Error "Invalid data URL")
  else
    let mimeMatch := Url.matchMime (nth 0 arr EmptyString) in
    if negb (Js.truthy mimeMatch) then
      Throw (Error "Could not parse MIME type from data URL")
    else
      let mimeType := mimeMatch in
      let data := nth_error arr 1 in
      Return {| part_text := None;
                inlineData := Some {| mimeType := mimeType; data := data |} |}.

Definition fileToPart (file : File) : Async Part :=
  await dataUrl := readAsDataURL file in
  Done (partOfDataUrl dataUrl).

(** ** The instruction compiler *)

Record TextStyle : Type := {
  font : option string;
  size : option string;
  color : option string;
  bold : option bool;
  italic : option bool
}.

Definition textPart (prompt : string) : Part :=
  {| part_text := Some prompt; inlineData := None |}.

(** The constant [prompt] of each facade, as a function of the parameters it
    interpolates. *)
Definition filterPrompt_text (filterPrompt : string) : string :=
  "You are an expert photo editor AI. Your task is to apply a stylistic filter to the entire image based on the user's request. Do not change the composition or content, only apply the style.
Filter Request: " ++ Js.dquote ++ filterPrompt ++ Js.dquote ++ "

Safety & Ethics Policy:
- Filters may subtly shift colors, but you MUST ensure they do not alter a person's fundamental race or ethnicity.
- YOU MUST REFUSE any request that explicitly asks to change a person's race (e.g., 'apply a filter to make me look Chinese').

Output: Return ONLY the final filtered image. Do not return text.".

Definition adjustmentPrompt_text (adjustmentPrompt : string) : string :=
  "You are an expert photo editor AI. Your task is to perform a natural, global adjustment to the entire image based on the user's request.
User Request: " ++ Js.dquote ++ adjustmentPrompt ++ Js.dquote ++ "

Editing Guidelines:
- The adjustment must be applied across the entire image.
- The result must be photorealistic.

Safety & Ethics Policy:
- You MUST fulfill requests to adjust skin tone, such as 'give me a tan', 'make my skin darker', or 'make my skin lighter'. These are considered standard photo enhancements.
- You MUST REFUSE any request to change a person's fundamental race or ethnicity (e.g., 'make me look Asian', 'change this person to be Black'). Do not perform these edits. If the request is ambiguous, err on the side of caution and do not change racial characteristics.

Output: Return ONLY the final adjusted image. Do not return text.".

Definition removeBackgroundPrompt_text : string :=
  "You are an expert photo editor AI. Your task is to perfectly isolate the main subject(s) from the background in the provided image.
- Identify the primary subject(s) of the photo.
- Create a clean and precise cutout of the subject(s), preserving all details like hair, fur, or fine edges.
- The background must be completely removed and replaced with a transparent canvas.
- The output MUST be a PNG image with a transparent background.
- Do not add any shadows, borders, or effects.
- The subject(s) must remain identical to the original, with no other changes.

Output: Return ONLY the final image with the transparent background. Do not return text.".

(** [styleParts.push(line)] under [if (cond)]. *)
Definition pushIf (cond : bool) (line : string) (styleParts : list string) : list string :=
  if cond then styleParts ++ [line] else styleParts.

Definition styleParts (style : TextStyle) : list string :=
  let styleParts := [] in
  let styleParts :=
    pushIf (Js.truthy (font style)) ("- Font face similar to: " ++ Js.tpl (font style)) styleParts in
  let styleParts :=
    pushIf (Js.truthy (size style)) ("- Size: " ++ Js.tpl (size style)) styleParts in
  let styleParts :=
    pushIf (Js.truthy (color style)) ("- Color: " ++ Js.tpl (color style)) styleParts in
  let styleParts := pushIf (Js.truthyb (bold style)) "- Weight: Bold" styleParts in
  let styleParts := pushIf (Js.truthyb (italic style)) "- Style: Italic" styleParts in
  styleParts.

Definition styleInstructions (oldText newText : string) (style : TextStyle) : string :=
  if (0 <? List.length (styleParts style))%nat then
    "
Key Style Instructions for the new text:
" ++ Js.join Js.newline (styleParts style) ++ "

If a style attribute is not specified above, you MUST intelligently match it to the original text's style (" ++ Js.dquote ++ oldText ++ Js.dquote ++ "). If there was no original text, match the surrounding environment for a natural look.
"
  else
    "
Key Style Instructions for the new text:
Your primary task is to make the new text, " ++ Js.dquote ++ newText ++ Js.dquote ++ ", an absolutely seamless replacement for the original text, " ++ Js.dquote ++ oldText ++ Js.dquote ++ ". To achieve this, you must follow a strict process:
1.  **Analyze the Original Text:** Carefully examine " ++ Js.dquote ++ oldText ++ Js.dquote ++ " in the image. Identify all of its visual properties with extreme precision.
2.  **Extract Key Attributes:** Your analysis must determine the following:
    -   **Font:** The exact font face, weight (bold, regular), and style (italic, normal).
    -   **Color:** The precise color, including any gradients, textures, or patterns.
    -   **Size & Scale:** The font size relative to the image and its surroundings.
    -   **Perspective & Transformation:** Any rotation, skewing, warping, or perspective applied to the text.
    -   **Lighting & Effects:** How the text interacts with the scene's lighting. Identify and replicate all shadows, highlights, glows, or bevels.
3.  **Apply to New Text:** Render the new text, " ++ Js.dquote ++ newText ++ Js.dquote ++ ", using the *exact* attributes you extracted. The new text must occupy the same 3D space as the original.

The final result must be indistinguishable from a real photograph where the new text was present from the beginning.
".

Definition textEditPrompt_text (oldText newText : string) (style : TextStyle) : string :=
  "You are an expert photo editor AI specializing in typography and photorealistic text integration. Your task is to find and replace text within the provided image.

Text to find: " ++ Js.dquote ++ oldText ++ Js.dquote ++ "
Text to replace it with: " ++ Js.dquote ++ newText ++ Js.dquote ++ "
" ++ styleInstructions oldText newText style ++ "
General Instructions:
1.  **Find the Text:** Accurately locate the instance of " ++ Js.dquote ++ oldText ++ Js.dquote ++ " in the image. If there are multiple instances, replace the most prominent one.
2.  **Reconstruct Background:** Before adding the new text, intelligently remove the original text and reconstruct the background behind it as if the text was never there. This is a critical step.
3.  **Seamless Integration:** The final result should be photorealistic and indistinguishable from a real photograph. The new text should look like it was part of the original scene.
4.  **Preserve Image:** The rest of the image (everything other than the text being replaced) must remain absolutely identical to the original.

Output: Return ONLY the final edited image in the same resolution. Do not return any text, explanations, or dialogue.".

Definition descriptionPrompt_text : string :=
  "You are an expert at analyzing images and creating descriptive prompts.
Analyze the provided image and generate a detailed, descriptive prompt that could be used by an image generation AI to create a similar image.

Describe the following aspects:
- Subject: What is the main subject?
- Composition: How is the shot framed (e.g., close-up, wide shot)?
- Setting: Where does the image take place?
- Lighting: What is the lighting like (e.g., golden hour, studio lighting)?
- Style: What is the artistic style (e.g., photorealistic, anime, watercolor)?
- Colors: What are the dominant colors?

Output only the final, detailed prompt as a single paragraph of text. Do not include any other explanations or introductory phrases.".

(** The style [{}], the default of the parameter [style]. *)
Definition noStyle : TextStyle :=
  {| font := None; size := None; color := None; bold := None; italic := None |}.

(** ** The operation facades *)

Definition imageRequest (originalImagePart : Part) (prompt : string)
  : GenerateContentParameters :=
  {| model := "gemini-2.5-flash-image-preview";
     contents := {| parts := Some [originalImagePart; textPart prompt] |};
     config := Some {| responseModalities := [IMAGE; TEXT] |} |}.

Section LocalizedEdit.

(** The coordinates of a hotspot are JavaScript numbers; the instruction
    only needs their rendering in a template literal. *)
Variable number : Type.
Variable numberToString : number -> string.

Record Hotspot : Type := { x : number; y : number }.

Definition editPrompt_text (userPrompt : string) (hotspot : Hotspot) : string :=
  "You are an expert photo editor AI. Your task is to perform a natural, localized edit on the provided image based on the user's request.
User Request: " ++ Js.dquote ++ userPrompt ++ Js.dquote ++ "
Edit Location: Focus on the area around pixel coordinates (x: " ++ numberToString (x hotspot) ++ ", y: " ++ numberToString (y hotspot) ++ ").

Editing Guidelines:
- The edit must be realistic and blend seamlessly with the surrounding area.
- The rest of the image (outside the immediate edit area) must remain identical to the original.

Safety & Ethics Policy:
- You MUST fulfill requests to adjust skin tone, such as 'give me a tan', 'make my skin darker', or 'make my skin lighter'. These are considered standard photo enhancements.
- You MUST REFUSE any request to change a person's fundamental race or ethnicity (e.g., 'make me look Asian', 'change this person to be Black'). Do not perform these edits. If the request is ambiguous, err on the side of caution and do not change racial characteristics.

Output: Return ONLY the final edited image. Do not return text.".

Definition generateEditedImage (originalImage : File) (userPrompt : string)
    (hotspot : Hotspot) : Async string :=
  await originalImagePart := fileToPart originalImage in
  let prompt := editPrompt_text userPrompt hotspot in
  await response := generateContent (imageRequest originalImagePart prompt) in
  Done (handleApiResponse response "edit").

End LocalizedEdit.

Arguments x {number} h.
Arguments y {number} h.

Definition generateFilteredImage (originalImage : File) (filterPrompt : string)
  : Async string :=
  await originalImagePart := fileToPart originalImage in
  let prompt := filterPrompt_text filterPrompt in
  await response := generateContent (imageRequest originalImagePart prompt) in
  Done (handleApiResponse response "filter").

Definition generateAdjustedImage (originalImage : File) (adjustmentPrompt : string)
  : Async string :=
  await originalImagePart := fileToPart originalImage in
  let prompt := adjustmentPrompt_text adjustmentPrompt in
  await response := generateContent (imageRequest originalImagePart prompt) in
  Done (handleApiResponse response "adjustment").

Definition generateRemovedBackground (originalImage : File) : Async string :=
  await originalImagePart := fileToPart originalImage in
  let prompt := removeBackgroundPrompt_text in
  await response := generateContent (imageRequest originalImagePart prompt) in
  Done (handleApiResponse response "background removal").

Definition generateTextEditImage (originalImage : File) (oldText newText : string)
    (style : TextStyle) : Async string :=
  await originalImagePart := fileToPart originalImage in
  let prompt := textEditPrompt_text oldText newText style in
  await response := generateContent (imageRequest originalImagePart prompt) in
  Done (handleApiResponse response "text edit").

Definition generateImageDescription (originalImage : File) : Async string :=
  await originalImagePart := fileToPart originalImage in
  let prompt := descriptionPrompt_text in
  await response :=
    generateContent
      {| model := "gemini-2.5-flash";
         contents := {| parts := Some [originalImagePart; textPart prompt] |};
         config := None |} in
  if Js.truthy (promptFeedback response ?. blockReason) then
    let blockReason := promptFeedback response ?. blockReason in
    let blockReasonMessage := promptFeedback response ?. blockReasonMessage in
    let errorMessage :=
      "Request was blocked. Reason: " ++ Js.tpl blockReason ++ ". "
        ++ Js.orElse blockReasonMessage EmptyString in
    Done (Throw (Error errorMessage))
  else
    let description := text response in
    if Js.truthy description then Done (Return (Js.trim (Js.tpl description)))
    else
      let finishReason := Js.first (candidates response) ?. finishReason in
      let errorMessage :=
        "The AI model did not return a text description. Reason: "
          ++ Js.orElse finishReason "Unknown" ++ ". This can happen due to safety filters." in
      Done (Throw (Error errorMessage)).

(** The message of the [TypeError] raised by reading a property of
    [undefined] (the wording of V8). *)
Definition typeErrorMessage (property : string) : string :=
  "Cannot read properties of undefined (reading '" ++ property ++ "')".

Definition generateImageFromPrompt (prompt : string) : Async string :=
  tryCatch
    (await response :=
       generateImages
         {| images_model := "imagen-4.0-generate-001";
            images_prompt := prompt;
            images_config :=
              {| numberOfImages := 1;
                 outputMimeType := "image/png";
                 aspectRatio := "1:1" |} |} in
     match generatedImages response with
     | Some (first :: _) =>
         match image first with
         | Some img =>
             let base64ImageBytes := imageBytes img in
             Done (Return ("data:image/png;base64," ++ Js.tpl base64ImageBytes))
         | None => Done (Throw (Error (typeErrorMessage "imageBytes")))
         end
     | _ =>
         Done (Throw (Error "The AI model did not return an image. This might be due to safety filters or the complexity of the prompt."))
     end)
    (fun err =>
       let errorMessage :=
         match err with
         | Error message => message
         | NotAnError _ => "An unknown error occurred during image generation."
         end in
       Done (Throw (Error errorMessage))).


(** ** Vocabulary of the properties *)

Definition noInlineData (part : Part) : Prop := inlineData part = None.

(** A response has no image when none of the parts of its first candidate has
    inline data (or when there are no such parts at all). *)
Definition noImage (response : GenerateContentResponse) : Prop :=
  forall ps, responseParts response = Some ps -> Forall noInlineData ps.

(** A text field of a style is set when it holds a non-empty string, a flag
    when it is [true]. *)
Definition anyFieldSet (style : TextStyle) : bool :=
  Js.truthy (font style) || Js.truthy (size style) || Js.truthy (color style)
  || Js.truthyb (bold style) || Js.truthyb (italic style).

Definition fieldLine (label : string) (value : option string) : list string :=
  match value with
  | Some (String c s) => [label ++ String c s]
  | _ => []
  end.

Definition flagLine (line : string) (flag : option bool) : list string :=
  match flag with
  | Some true => [line]
  | _ => []
  end.

(** Following the spec's words: one instruction line per field that is set
    (font, size, color, weight, style, in this order) and no other line. *)
Definition perFieldLines (style : TextStyle) : list string :=
  (fieldLine "- Font face similar to: " (font style)
   ++ fieldLine "- Size: " (size style)
   ++ fieldLine "- Color: " (color style)
   ++ flagLine "- Weight: Bold" (bold style)
   ++ flagLine "- Style: Italic" (italic style))%list.

(** A field that was provided with a falsy value, or not provided at all. *)
Definition falsyText (value : option string) : Prop :=
  value = None \/ value = Some EmptyString.

Definition falsyFlag (flag : option bool) : Prop :=
  flag = None \/ flag = Some false.

(** The two directives of the safety policy of a localized edit and of an
    adjustment, and the two of a filter, as the instructions word them. *)
Definition skinToneDirective : string :=
  "- You MUST fulfill requests to adjust skin tone, such as 'give me a tan', 'make my skin darker', or 'make my skin lighter'. These are considered standard photo enhancements.".

Definition refusalDirective : string :=
  "- You MUST REFUSE any request to change a person's fundamental race or ethnicity (e.g., 'make me look Asian', 'change this person to be Black'). Do not perform these edits. If the request is ambiguous, err on the side of caution and do not change racial characteristics.".

Definition filterShiftDirective : string :=
  "- Filters may subtly shift colors, but you MUST ensure they do not alter a person's fundamental race or ethnicity.".

Definition filterRefusalDirective : string :=
  "- YOU MUST REFUSE any request that explicitly asks to change a person's race (e.g., 'apply a filter to make me look Chinese').".

(** [s] holds no occurrence of the code unit [c]. *)
Definition without (c : ascii) (s : string) : Prop :=
  ~ In c (list_ascii_of_string s).

(** What [(.*?)] can capture in [/:(.*?);/]: code units other than line
    terminators, and, the quantifier being lazy, other than [;]. *)
Definition plain (group : string) : Prop :=
  Forall (fun c => c <> ";"%char /\ Url.isLineTerminator c = false)
    (list_ascii_of_string group).

(** The regular expression matches at a [:] that is followed by [rest],
    capturing [group]. *)
Definition matchesAfterColon (rest group : string) : Prop :=
  exists post, rest = group ++ ";" ++ post /\ plain group.

(** [group] is the mime type that [/:(.*?);/] finds in [header]: the capture
    of the match at the leftmost [:] at which the expression matches. *)
Definition mimeSegment (header group : string) : Prop :=
  exists pre rest,
    header = pre ++ ":" ++ rest
    /\ matchesAfterColon rest group
    /\ forall p1 p2, pre = p1 ++ ":" ++ p2 ->
         forall other, ~ matchesAfterColon (p2 ++ ":" ++ rest) other.

(** ** Sample inputs *)

Definition pngBlob (payload : string) : Blob :=
  {| mimeType := Some "image/png"; data := Some payload |}.

Definition imagePart (b : Blob) : Part :=
  {| part_text := None; inlineData := Some b |}.

Definition candidateOf (ps : list Part) (reason : option string) : Candidate :=
  {| content := Some {| parts := Some ps |}; finishReason := reason |}.

(** A blocked response that nevertheless carries an image. *)
Definition blockedWithImage : GenerateContentResponse :=
  {| promptFeedback :=
       Some {| blockReason := Some "SAFETY";
               blockReasonMessage := Some "Unsafe prompt." |};
     candidates := Some [candidateOf [imagePart (pngBlob "AAAA")] (Some "STOP")];
     text := None |}.

(** A response with a text part followed by two images. *)
Definition twoImages : GenerateContentResponse :=
  {| promptFeedback := None;
     candidates :=
       Some [candidateOf
               [textPart "Here you are.";
                imagePart {| mimeType := Some "image/jpeg"; data := Some "Zmlyc3Q=" |};
                imagePart (pngBlob "c2Vjb25k")]
               (Some "STOP")];
     text := Some "Here you are." |}.

(** A response without image whose only candidate finished with [reason]. *)
Definition finishedWith (reason : option string) (answer : option string)
  : GenerateContentResponse :=
  {| promptFeedback := None;
     candidates := Some [candidateOf [] reason];
     text := answer |}.

Definition sampleFile : File := {| fileName := "photo.png" |}.

(** A world in which every file reads as [dataUrl], the multimodal model
    answers [response] and the image model answers [images]. *)
Definition worldOf (dataUrl : Completion string)
    (response : Completion GenerateContentResponse)
    (images : Completion GenerateImagesResponse) : World :=
  {| fileReader := fun _ => dataUrl;
     models_generateContent := fun _ => response;
     models_generateImages := fun _ => images |}.

(** ** The panels that call the service

    A panel is a React component: its state is a record of the values held by
    its [useState] hooks, and a handler maps the state at the time of the event
    to the next state and to the calls it makes on the callback the panel
    received as a property. *)

(** [`${n}`] for an integer [n]. *)
Definition showInteger (n : Z) : string :=
  NilZero.string_of_int (Z.to_int n).

Module TextPanel.

Record State : Type := {
  oldText : string;
  newText : string;
  font : string;
  size : string;
  color : string;
  isBold : bool;
  isItalic : bool
}.

(** [oldText.trim() && newText.trim() && !isLoading], as a condition. *)
Definition canApply (isLoading : bool) (st : State) : bool :=
  Js.truthy (Some (Js.trim (oldText st)))
  && Js.truthy (Some (Js.trim (newText st)))
  && negb isLoading.

(** [if (field.trim()) style.field = field.trim()]. *)
Definition trimmedField (field : string) : option string :=
  if Js.truthy (Some (Js.trim field)) then Some (Js.trim field) else None.

(** [if (flag) style.flag = true]. *)
Definition checkedFlag (flag : bool) : option bool :=
  if flag then Some true else None.

(** The arguments of the call to [onApplyTextEdit], if the call is made. *)
Definition handleApply (isLoading : bool) (st : State)
  : option (string * string * TextStyle) :=
  if canApply isLoading st then
    let style :=
      Build_TextStyle (trimmedField (font st)) (trimmedField (size st))
        (trimmedField (color st)) (checkedFlag (isBold st))
        (checkedFlag (isItalic st)) in
    Some (oldText st, newText st, style)
  else None.

(** [0-9A-F] under the flag [i]: a digit or one of the letters A to F, in
    either case. *)
Definition isHexDigit (c : ascii) : bool :=
  let n := nat_of_ascii c in
  ((48 <=? n)%nat && (n <=? 57)%nat)
  || ((65 <=? n)%nat && (n <=? 70)%nat)
  || ((97 <=? n)%nat && (n <=? 102)%nat).

Fixpoint allHexDigits (s : string) : bool :=
  match s with
  | EmptyString => true
  | String c s' => isHexDigit c && allHexDigits s'
  end.

(** [/^#[0-9A-F]{6}$/i.test(colorStr)]. *)
Definition isValidHex (colorStr : string) : bool :=
  match colorStr with
  | String c digits =>
      Ascii.eqb c "#" && (String.length digits =? 6)%nat && allHexDigits digits
  | EmptyString => false
  end.

(** The value given to the color picker:
    [isValidHex(color) ? color : '#ffffff']. *)
Definition colorPickerValue (st : State) : string :=
  if isValidHex (color st) then color st else "#ffffff".

End TextPanel.

Module AdjustmentPanel.

Record State : Type := {
  selectedPresetPrompt : option string;
  customPrompt : string;
  contrast : Z
}.

Definition initial : State :=
  {| selectedPresetPrompt := None; customPrompt := EmptyString; contrast := 0 |}.

Definition presets : list (string * string) :=
  [ ("Blur Background", "Apply a realistic depth-of-field effect, making the background blurry while keeping the main subject in sharp focus.");
    ("Enhance Details", "Slightly enhance the sharpness and details of the image without making it look unnatural.");
    ("Warmer Lighting", "Adjust the color temperature to give the image warmer, golden-hour style lighting.");
    ("Studio Light", "Add dramatic, professional studio lighting to the main subject.") ].

(** [selectedPresetPrompt || customPrompt]. *)
Definition activePrompt (st : State) : string :=
  Js.orElse (selectedPresetPrompt st) (customPrompt st).

Definition handlePresetClick (prompt : string) (st : State) : State * list string :=
  ({| selectedPresetPrompt := Some prompt; customPrompt := EmptyString; contrast := 0 |},
   []).

Definition handleCustomChange (value : string) (st : State) : State * list string :=
  ({| selectedPresetPrompt := None; customPrompt := value; contrast := 0 |}, []).

(** The slider is a range input from -50 to 50 in steps of 1: [value] is the
    integer that [parseInt(e.target.value, 10)] reads from it. *)
Definition handleContrastChange (value : Z) (st : State) : State * list string :=
  ({| selectedPresetPrompt := None; customPrompt := EmptyString; contrast := value |},
   []).

Definition handleContrastApply (isLoading : bool) (st : State) : State * list string :=
  let currentContrast := contrast st in
  if (currentContrast =? 0)%Z || isLoading then (st, [])
  else
    let prompt :=
      if (0 <? currentContrast)%Z then
        "Increase contrast by " ++ showInteger currentContrast ++ "%"
      else
        "Decrease contrast by " ++ showInteger (- currentContrast) ++ "%" in
    ({| selectedPresetPrompt := selectedPresetPrompt st;
        customPrompt := customPrompt st;
        contrast := 0 |},
     [prompt]).

Definition handleApply (st : State) : State * list string :=
  if Js.truthy (Some (activePrompt st)) then (st, [activePrompt st]) else (st, []).

(** The apply button is rendered only when [activePrompt] is truthy, and it is
    disabled when [isLoading || !activePrompt.trim()]: a click reaches
    [handleApply] only when the button is there and enabled. *)
Definition applyButtonEnabled (isLoading : bool) (st : State) : bool :=
  Js.truthy (Some (activePrompt st))
  && negb (isLoading || negb (Js.truthy (Some (Js.trim (activePrompt st))))).

(** The events of the panel, each with the value of [isLoading] at the time. *)
Inductive Event : Type :=
| PresetClick (prompt : string)
| CustomChange (value : string)
| ContrastChange (value : Z)
| ContrastRelease (isLoading : bool)
| ApplyClick (isLoading : bool).

Definition handle (e : Event) (st : State) : State * list string :=
  match e with
  | PresetClick prompt => handlePresetClick prompt st
  | CustomChange value => handleCustomChange value st
  | ContrastChange value => handleContrastChange value st
  | ContrastRelease isLoading => handleContrastApply isLoading st
  | ApplyClick isLoading =>
      if applyButtonEnabled isLoading st then handleApply st else (st, [])
  end.

(** The state after a sequence of events and the calls made on
    [onApplyAdjustment] along the way, in order. *)
Fixpoint play (events : list Event) (st : State) : State * list string :=
  match events with
  | [] => (st, [])
  | e :: events' =>
      let (st', calls) := handle e st in
      let (st'', calls') := play events' st' in
      (st'', (calls ++ calls')%list)
  end.

(** At most one of the three controls holds a value. *)
Definition oneControl (st : State) : Prop :=
  (Js.truthy (selectedPresetPrompt st) = true ->
     customPrompt st = EmptyString /\ contrast st = 0%Z)
  /\ (customPrompt st <> EmptyString ->
     selectedPresetPrompt st = None /\ contrast st = 0%Z)
  /\ (contrast st <> 0%Z ->
     selectedPresetPrompt st = None /\ customPrompt st = EmptyString).

End AdjustmentPanel.

(** ** Vocabulary of the further properties *)

(** The data URI that [handleApiResponse] builds from a mime type and a
    payload. *)
Definition dataUri (mime payload : string) : string :=
  "data:" ++ mime ++ ";base64," ++ payload.

(** [s] ends with [suffix]. *)
Definition endsWith (s suffix : string) : Prop :=
  exists before, s = before ++ suffix.

(** What a facade that sends an image to the multimodal model does in a world
    [w]: nothing is sent when the image cannot be encoded; otherwise one
    request goes out, with the image part and the instruction, for an image
    and a text; a rejected request is thrown as it is, and an answer is
    classified under the context label of the facade. *)
Definition sendsImageAndInstruction (w : World) (facade : Async string)
    (file : File) (instruction context : string) : Prop :=
  (forall e, run w (fileToPart file) = Throw e ->
     run w facade = Throw e /\ requests w facade = [])
  /\ (forall part, run w (fileToPart file) = Return part ->
     let request :=
       {| model := "gemini-2.5-flash-image-preview";
          contents := {| parts := Some [part; textPart instruction] |};
          config := Some {| responseModalities := [IMAGE; TEXT] |} |} in
     requests w facade = [ContentRequest request]
     /\ (forall e, models_generateContent w request = Throw e ->
           run w facade = Throw e)
     /\ (forall response, models_generateContent w request = Return response ->
           run w facade = handleApiResponse response context)).

(** The fields of a style that are set, with their values. *)
Definition setText (value : option string) : option string :=
  if Js.truthy value then value else None.

Definition setFields (style : TextStyle)
  : option string * option string * option string * bool * bool :=
  (setText (font style), setText (size style), setText (color style),
   Js.truthyb (bold style), Js.truthyb (italic style)).

(** The field that a style line is about, read off the characters that
    follow its dash: 0 for the font, 1 for the size, 2 for the color, 3 for
    the weight and 4 for the style. *)
Definition lineKey (line : string) : nat :=
  match line with
  | String _ (String _ (String c (String d _))) =>
      if Ascii.eqb c "F" then 0
      else if Ascii.eqb c "C" then 2
      else if Ascii.eqb c "W" then 3
      else if Ascii.eqb d "i" then 1
      else 4
  | _ => 5
  end.

(** A response whose first candidate has no image and whose second has one. *)
Definition imageInSecondCandidate : GenerateContentResponse :=
  {| promptFeedback := None;
     candidates :=
       Some [candidateOf [textPart "First try."] (Some "STOP");
             candidateOf [imagePart (pngBlob "c2Vjb25k")] (Some "STOP")];
     text := None |}.

(** * Properties *)

(** ** Strings *)

Lemma append_assoc (a b c : string) : (a ++ b) ++ c = a ++ b ++ c.
Proof. induction a as [|ch a IH]; simpl; [reflexivity | now rewrite IH]. Qed.

Lemma append_nil_r (a : string) : a ++ EmptyString = a.
Proof. induction a as [|ch a IH]; simpl; [reflexivity | now rewrite IH]. Qed.

Lemma startsWith_app (p t : string) : Js.startsWith (p ++ t) p = true.
Proof.
  induction p as [|ch p IH]; simpl; [reflexivity|].
  now rewrite Ascii.eqb_refl, IH.
Qed.

Lemma startsWith_inv (s p : string) :
  Js.startsWith s p = true -> exists t, s = p ++ t.
Proof.
  revert s; induction p as [|ch p IH]; intros s H.
  - now exists s.
  - destruct s as [|c s]; simpl in H; [discriminate|].
    apply andb_true_iff in H as [Hc Hs].
    apply Ascii.eqb_eq in Hc; subst c.
    destruct (IH _ Hs) as [t ->]. now exists t.
Qed.

Lemma startsWith_app_l (s t p : string) :
  Js.startsWith s p = true -> Js.startsWith (s ++ t) p = true.
Proof.
  intros H. destruct (startsWith_inv _ _ H) as [u ->].
  rewrite append_assoc. apply startsWith_app.
Qed.

Lemma includes_prefix (p t : string) : Js.includes (p ++ t) p = true.
Proof.
  destruct p as [|ch p]; [destruct t; reflexivity|].
  change (Js.startsWith (String ch p ++ t) (String ch p)
          || Js.includes (p ++ t) (String ch p) = true).
  now rewrite startsWith_app.
Qed.

Lemma includes_app_r (s t p : string) :
  Js.includes t p = true -> Js.includes (s ++ t) p = true.
Proof.
  intros H. induction s as [|ch s IH]; simpl; [exact H|].
  rewrite IH. apply orb_true_r.
Qed.

Lemma includes_app_l (s t p : string) :
  Js.includes s p = true -> Js.includes (s ++ t) p = true.
Proof.
  induction s as [|ch s IH]; intros H.
  - destruct p; [destruct t; reflexivity | discriminate].
  - simpl in H. apply orb_true_iff in H as [H|H].
    + change (Js.startsWith (String ch s ++ t) p
              || Js.includes (s ++ t) p = true).
      now rewrite (startsWith_app_l (String ch s) t p H).
    + change (Js.startsWith (String ch s ++ t) p
              || Js.includes (s ++ t) p = true).
      rewrite (IH H). apply orb_true_r.
Qed.

Lemma includes_inv (s p : string) :
  Js.includes s p = true -> exists a b, s = a ++ p ++ b.
Proof.
  induction s as [|ch s IH]; intros H.
  - destruct p; [now exists EmptyString, EmptyString | discriminate].
  - simpl in H. apply orb_true_iff in H as [H|H].
    + destruct (startsWith_inv _ _ H) as [t Ht].
      exists EmptyString, t. exact Ht.
    + destruct (IH H) as (a & b & ->).
      now exists (String ch a), b.
Qed.

Lemma truthy_nonempty (s : string) : s <> EmptyString -> Js.truthy (Some s) = true.
Proof. destruct s; [contradiction | reflexivity]. Qed.

Lemma includes_infix (a p b : string) : Js.includes (a ++ p ++ b) p = true.
Proof. apply includes_app_r, includes_prefix. Qed.

(** [s] occurs in a concatenation as soon as it occurs in one of the pieces,
    or is one of them. *)
Ltac mentions_a_variable s :=
  match s with
  | context [?v] => is_var v
  end.

Ltac is_literal s := tryif mentions_a_variable s then fail else idtac.

Ltac find_in_pieces :=
  repeat rewrite append_assoc;
  solve
    [ apply includes_prefix
    | match goal with
      | |- Js.includes (?a ++ _) ?p = true =>
          is_literal a; is_literal p; apply includes_app_l; vm_compute; reflexivity
      | |- Js.includes ?s ?p = true =>
          is_literal s; is_literal p; vm_compute; reflexivity
      end
    | apply includes_app_r; find_in_pieces
    | apply includes_app_l; vm_compute; reflexivity
    | vm_compute; reflexivity ].

(** ** The response classifier *)

Lemma firstInlineData_at (before after : list Part) (part : Part) (b : Blob) :
  Forall noInlineData before ->
  inlineData part = Some b ->
  firstInlineData (before ++ part :: after)%list = Some b.
Proof.
  intros Hbefore Hpart.
  induction Hbefore as [|q before Hq _ IH]; simpl.
  - now rewrite Hpart.
  - unfold noInlineData in Hq. now rewrite Hq.
Qed.

Lemma firstInlineData_none (ps : list Part) :
  Forall noInlineData ps -> firstInlineData ps = None.
Proof.
  induction 1 as [|q ps Hq _ IH]; simpl; [reflexivity|].
  unfold noInlineData in Hq. now rewrite Hq.
Qed.

Lemma first_image_exists (ps : list Part) :
  Exists (fun part => inlineData part <> None) ps ->
  exists before part after b,
    ps = (before ++ part :: after)%list /\ Forall noInlineData before /\
    inlineData part = Some b.
Proof.
  induction ps as [|q ps IH]; intros H; [inversion H|].
  destruct (inlineData q) as [b|] eqn:Hq.
  - exists [], q, ps, b. repeat split; [constructor | exact Hq].
  - inversion H as [? ? Hhead | ? ? Htail]; subst; [congruence|].
    destruct (IH Htail) as (before & part & after & b & -> & Hnone & Hpart).
    exists (q :: before), part, after, b.
    repeat split; [constructor; assumption | exact Hpart].
Qed.

Lemma responseParts_of (response : GenerateContentResponse) (c : Candidate)
    (others : list Candidate) (cont : Content) :
  candidates response = Some (c :: others) ->
  content c = Some cont ->
  responseParts response = parts cont.
Proof.
  intros Hc Hcont. unfold responseParts. rewrite Hc. simpl. now rewrite Hcont.
Qed.

(** C1. A response whose prompt feedback carries a non-empty block reason is
    classified as blocked: [handleApiResponse] throws the error whose message
    carries the block reason and the accompanying message (nothing when there
    is none), whatever else the response holds, an inline image included; it
    never returns an image. *)
Theorem blocked_takes_precedence
    (response : GenerateContentResponse) (context : string)
    (feedback : PromptFeedback) (reason : string) :
  promptFeedback response = Some feedback ->
  blockReason feedback = Some reason ->
  reason <> EmptyString ->
  handleApiResponse response context
    = Throw (Error ("Request was blocked. Reason: " ++ reason ++ ". "
                      ++ match blockReasonMessage feedback with
                         | Some message => message
                         | None => EmptyString
                         end))
  /\ forall uri, handleApiResponse response context <> Return uri.
Proof.
  intros Hfb Hreason Hne.
  assert (Heq : handleApiResponse response context
    = Throw (Error ("Request was blocked. Reason: " ++ reason ++ ". "
                      ++ match blockReasonMessage feedback with
                         | Some message => message
                         | None => EmptyString
                         end))).
  { unfold handleApiResponse. rewrite Hfb. simpl. rewrite Hreason.
    destruct reason as [|ch reason]; [contradiction|]. simpl.
    destruct (blockReasonMessage feedback) as [[|c m]|]; reflexivity. }
  split; [exact Heq|]. intros uri. rewrite Heq. discriminate.
Qed.

Lemma blocked_takes_precedence_witness :
  handleApiResponse blockedWithImage "edit"
    = Throw (Error "Request was blocked. Reason: SAFETY. Unsafe prompt.")
  /\ forall uri, handleApiResponse blockedWithImage "edit" <> Return uri.
Proof.
  apply (blocked_takes_precedence blockedWithImage "edit"
           {| blockReason := Some "SAFETY";
              blockReasonMessage := Some "Unsafe prompt." |} "SAFETY");
    [reflexivity | reflexivity | discriminate].
Defined.

(** C2. Without a block indicator, when the parts of the first candidate's
    content hold a part with inline data, [handleApiResponse] returns the data
    URI [data:<mime>;base64,<payload>] of the first such part: the parts before
    it have no inline data, the parts after it are ignored. *)
Theorem first_image_wins
    (response : GenerateContentResponse) (context : string)
    (c : Candidate) (others : list Candidate) (cont : Content) (ps : list Part) :
  Js.truthy (promptFeedback response ?. blockReason) = false ->
  candidates response = Some (c :: others) ->
  content c = Some cont ->
  parts cont = Some ps ->
  Exists (fun part => inlineData part <> None) ps ->
  (exists before part after b,
      ps = (before ++ part :: after)%list /\ Forall noInlineData before /\
      inlineData part = Some b /\
      handleApiResponse response context
        = Return ("data:" ++ Js.tpl (mimeType b) ++ ";base64," ++ Js.tpl (data b)))
  /\ (forall before part after b,
      ps = (before ++ part :: after)%list -> Forall noInlineData before ->
      inlineData part = Some b ->
      handleApiResponse response context
        = Return ("data:" ++ Js.tpl (mimeType b) ++ ";base64," ++ Js.tpl (data b))).
Proof.
  intros Hblock Hc Hcont Hparts Hex.
  assert (Hall : forall before part after b,
      ps = (before ++ part :: after)%list -> Forall noInlineData before ->
      inlineData part = Some b ->
      handleApiResponse response context
        = Return ("data:" ++ Js.tpl (mimeType b) ++ ";base64," ++ Js.tpl (data b))).
  { intros before part after b -> Hbefore Hpart.
    unfold handleApiResponse. rewrite Hblock.
    rewrite (responseParts_of _ _ _ _ Hc Hcont), Hparts.
    now rewrite (firstInlineData_at _ _ _ _ Hbefore Hpart). }
  split; [|exact Hall].
  destruct (first_image_exists _ Hex) as (before & part & after & b & Hps & Hnone & Hpart).
  exists before, part, after, b. repeat split; try assumption.
  now apply (Hall before part after).
Qed.

Lemma first_image_wins_witness :
  handleApiResponse twoImages "filter" = Return "data:image/jpeg;base64,Zmlyc3Q=".
Proof.
  refine (proj2 (first_image_wins twoImages "filter"
            (candidateOf
               [textPart "Here you are.";
                imagePart {| mimeType := Some "image/jpeg"; data := Some "Zmlyc3Q=" |};
                imagePart (pngBlob "c2Vjb25k")]
               (Some "STOP"))
            [] _ _ _ _ _ _ _)
            [textPart "Here you are."]
            (imagePart {| mimeType := Some "image/jpeg"; data := Some "Zmlyc3Q=" |})
            [imagePart (pngBlob "c2Vjb25k")]
            {| mimeType := Some "image/jpeg"; data := Some "Zmlyc3Q=" |}
            _ _ _);
    try reflexivity.
  - apply Exists_cons_tl, Exists_cons_hd. discriminate.
  - repeat constructor.
Defined.

Lemma noImage_firstInlineData (response : GenerateContentResponse) :
  noImage response ->
  match responseParts response with
  | Some ps => firstInlineData ps
  | None => None
  end = None.
Proof.
  intros H. destruct (responseParts response) as [ps|] eqn:Hps; [|reflexivity].
  exact (firstInlineData_none _ (H _ Hps)).
Qed.

(** C3. Without a block indicator and without image, when the first candidate
    carries a finish-reason code other than "STOP", [handleApiResponse] throws
    the stopped-generation error, whose message carries the context label and
    that finish reason. A finish-reason code is one of the names the service
    defines ("STOP", "SAFETY", "MAX_TOKENS", ...): a string that is not
    empty. *)
Theorem abnormal_stop_without_image
    (response : GenerateContentResponse) (context : string)
    (c : Candidate) (others : list Candidate) (reason : string) :
  Js.truthy (promptFeedback response ?. blockReason) = false ->
  noImage response ->
  candidates response = Some (c :: others) ->
  finishReason c = Some reason ->
  reason <> EmptyString ->
  reason <> "STOP" ->
  handleApiResponse response context
    = Throw (Error ("Image generation for " ++ context
                      ++ " stopped unexpectedly. Reason: " ++ reason
                      ++ ". This often relates to safety settings.")).
Proof.
  intros Hblock Hnone Hc Hreason Hne Hstop.
  unfold handleApiResponse.
  rewrite Hblock, (noImage_firstInlineData _ Hnone), Hc.
  cbn [Js.first Js.chain]. rewrite Hreason.
  apply String.eqb_neq in Hstop.
  destruct reason as [|ch reason]; [contradiction|].
  cbn [Js.truthy Js.tpl andb]. now rewrite Hstop.
Qed.

Lemma abnormal_stop_without_image_witness :
  handleApiResponse (finishedWith (Some "SAFETY") None) "adjustment"
    = Throw (Error "Image generation for adjustment stopped unexpectedly. Reason: SAFETY. This often relates to safety settings.").
Proof.
  apply (abnormal_stop_without_image (finishedWith (Some "SAFETY") None) "adjustment"
           (candidateOf [] (Some "SAFETY")) [] "SAFETY");
    try reflexivity; try discriminate.
  intros ps Hps. injection Hps as <-. constructor.
Defined.

(** C4. Without a block indicator and without image, when the finish reason is
    "STOP" or absent (or empty), [handleApiResponse] throws the no-image error:
    its message names the context label; when the text of the response, once
    trimmed, is not empty, the message quotes that trimmed text; when there is
    no text, or only white space, the message gives the generic explanation. *)
Theorem text_only_fallback
    (response : GenerateContentResponse) (context : string) :
  Js.truthy (promptFeedback response ?. blockReason) = false ->
  noImage response ->
  Js.truthy (Js.first (candidates response) ?. finishReason) = false
    \/ Js.first (candidates response) ?. finishReason = Some "STOP" ->
  exists message,
    handleApiResponse response context = Throw (Error message)
    /\ Js.startsWith message
         ("The AI model did not return an image for the " ++ context ++ ". ") = true
    /\ Js.includes message context = true
    /\ (forall t, text response = Some t -> Js.trim t <> EmptyString ->
          message = "The AI model did not return an image for the " ++ context ++ ". "
                      ++ "The model responded with text: "
                      ++ Js.dquote ++ Js.trim t ++ Js.dquote
          /\ Js.includes message (Js.trim t) = true)
    /\ (text response = None
          \/ (exists t, text response = Some t /\ Js.trim t = EmptyString) ->
        Js.includes message
          "This can happen due to safety filters or if the request is too complex. Please try rephrasing your prompt to be more direct."
          = true).
Proof.
  intros Hblock Hnone Hfinish.
  unfold handleApiResponse.
  rewrite Hblock, (noImage_firstInlineData _ Hnone).
  assert (Hguard :
    Js.truthy (Js.first (candidates response) ?. finishReason)
      && negb (Js.tpl (Js.first (candidates response) ?. finishReason) =? "STOP")%string
    = false).
  { destruct Hfinish as [H|H]; rewrite H; reflexivity. }
  cbv zeta. rewrite Hguard.
  eexists. split; [reflexivity|].
  split.
  { match goal with
    | |- Js.startsWith (?a ++ ?c ++ ?d ++ ?t) _ = true =>
        replace (a ++ c ++ d ++ t) with ((a ++ c ++ d) ++ t)
          by (now rewrite !append_assoc)
    end.
    apply startsWith_app. }
  split; [find_in_pieces|].
  split.
  - intros t Ht Hne. rewrite Ht. cbn [option_map].
    rewrite (truthy_nonempty _ Hne). cbn [Js.tpl].
    split; [reflexivity|]. find_in_pieces.
  - intros [Hnotext | (t & Ht & Hempty)].
    + rewrite Hnotext. cbn [option_map Js.truthy]. find_in_pieces.
    + rewrite Ht. cbn [option_map]. rewrite Hempty. cbn [Js.truthy]. find_in_pieces.
Qed.

Lemma text_only_fallback_witness :
  exists message,
    handleApiResponse (finishedWith (Some "STOP") (Some "  I cannot edit this image.
")) "filter" = Throw (Error message)
    /\ Js.includes message "filter" = true
    /\ Js.includes message "I cannot edit this image." = true.
Proof.
  destruct (text_only_fallback (finishedWith (Some "STOP") (Some "  I cannot edit this image.
")) "filter") as (message & Hthrow & _ & Hcontext & Htext & _).
  - reflexivity.
  - intros ps Hps. injection Hps as <-. constructor.
  - right. reflexivity.
  - exists message. split; [exact Hthrow|]. split; [exact Hcontext|].
    apply (Htext _ eq_refl). discriminate.
Defined.

(** ** The instruction compiler *)

Lemma includes_intro (s a p b : string) :
  s = a ++ p ++ b -> Js.includes s p = true.
Proof. intros ->. apply includes_infix. Qed.

Lemma styleParts_perFieldLines (style : TextStyle) :
  styleParts style = perFieldLines style.
Proof.
  unfold styleParts, perFieldLines, pushIf, fieldLine, flagLine.
  destruct style as [[[|c1 f]|] [[|c2 z]|] [[|c3 k]|] [[|]|] [[|]|]]; reflexivity.
Qed.

Lemma anyFieldSet_length (style : TextStyle) :
  (0 <? List.length (styleParts style))%nat = anyFieldSet style.
Proof.
  unfold styleParts, anyFieldSet, pushIf.
  destruct style as [[[|c1 f]|] [[|c2 z]|] [[|c3 k]|] [[|]|] [[|]|]]; reflexivity.
Qed.

Lemma textEditPrompt_includes_styleInstructions (oldText newText : string)
    (style : TextStyle) :
  Js.includes (textEditPrompt_text oldText newText style)
    (styleInstructions oldText newText style) = true.
Proof. unfold textEditPrompt_text. find_in_pieces. Qed.

Lemma textEditPrompt_includes (oldText newText phrase : string) (style : TextStyle) :
  Js.includes (styleInstructions oldText newText style) phrase = true ->
  Js.includes (textEditPrompt_text oldText newText style) phrase = true.
Proof.
  intros H. unfold textEditPrompt_text.
  repeat rewrite append_assoc.
  do 9 apply includes_app_r. now apply includes_app_l.
Qed.

(** C5. The instruction compiled for a text replacement. When no field of the
    style is set, it holds the strict process: analyze the original text, its
    font, color, size and scale, perspective and lighting, and render the new
    text with the exact attributes extracted. When some field is set, its
    style block is the heading, then exactly the lines of the fields that are
    set, then the rule that an attribute left unspecified must be matched to
    the style of the original text; the instruction contains that block. *)
Theorem style_branching (oldText newText : string) (style : TextStyle) :
  (anyFieldSet style = false ->
     let instruction := textEditPrompt_text oldText newText style in
     Js.includes instruction "you must follow a strict process:" = true
     /\ Js.includes instruction
          "**Analyze the Original Text:** Carefully examine " = true
     /\ Js.includes instruction
          "**Font:** The exact font face, weight (bold, regular), and style (italic, normal)." = true
     /\ Js.includes instruction
          "**Color:** The precise color, including any gradients, textures, or patterns." = true
     /\ Js.includes instruction
          "**Size & Scale:** The font size relative to the image and its surroundings." = true
     /\ Js.includes instruction
          "**Perspective & Transformation:** Any rotation, skewing, warping, or perspective applied to the text." = true
     /\ Js.includes instruction
          "**Lighting & Effects:** How the text interacts with the scene's lighting." = true
     /\ Js.includes instruction
          ", using the *exact* attributes you extracted." = true)
  /\ (anyFieldSet style = true ->
     styleParts style = perFieldLines style
     /\ styleInstructions oldText newText style
        = "
Key Style Instructions for the new text:
" ++ Js.join Js.newline (perFieldLines style) ++ "

If a style attribute is not specified above, you MUST intelligently match it to the original text's style (" ++ Js.dquote ++ oldText ++ Js.dquote ++ "). If there was no original text, match the surrounding environment for a natural look.
"
     /\ Js.includes (textEditPrompt_text oldText newText style)
          (styleInstructions oldText newText style) = true).
Proof.
  split.
  - intros Hunset. cbv zeta.
    repeat split; apply textEditPrompt_includes;
      unfold styleInstructions; rewrite anyFieldSet_length, Hunset;
      find_in_pieces.
  - intros Hset. split; [apply styleParts_perFieldLines|]. split.
    + unfold styleInstructions. rewrite anyFieldSet_length, Hset.
      now rewrite styleParts_perFieldLines.
    + apply textEditPrompt_includes_styleInstructions.
Qed.

Lemma style_branching_witness :
  Js.includes (textEditPrompt_text "SALE" "SOLD" noStyle)
    "**Analyze the Original Text:** Carefully examine " = true
  /\ Js.includes
       (textEditPrompt_text "SALE" "SOLD"
          {| font := Some "Arial"; size := None; color := None;
             bold := Some true; italic := Some false |})
       "
Key Style Instructions for the new text:
- Font face similar to: Arial
- Weight: Bold

If a style attribute is not specified above, you MUST intelligently match it to the original text's style (" = true.
Proof.
  split.
  - exact (proj1 (proj2 (proj1 (style_branching "SALE" "SOLD" noStyle) eq_refl))).
  - destruct (proj2 (style_branching "SALE" "SOLD"
                       {| font := Some "Arial"; size := None; color := None;
                          bold := Some true; italic := Some false |}) eq_refl)
      as (_ & Hblock & Hincl).
    rewrite Hblock in Hincl.
    destruct (includes_inv _ _ Hincl) as (a & b & Heq).
    apply (includes_intro _ a _
             (Js.dquote ++ "SALE" ++ Js.dquote ++ "). If there was no original text, match the surrounding environment for a natural look.
" ++ b)).
    rewrite Heq. reflexivity.
Defined.

(** C10. A style whose fields are all absent, empty or [false] compiles to
    the very instruction of the style without any field: no style line is
    collected and the strict process is chosen. *)
Theorem falsy_fields_are_absent (oldText newText : string) (style : TextStyle) :
  falsyText (font style) ->
  falsyText (size style) ->
  falsyText (color style) ->
  falsyFlag (bold style) ->
  falsyFlag (italic style) ->
  styleParts style = []
  /\ textEditPrompt_text oldText newText style
     = textEditPrompt_text oldText newText noStyle
  /\ Js.includes (textEditPrompt_text oldText newText style)
       "**Analyze the Original Text:** Carefully examine " = true.
Proof.
  intros Hfont Hsize Hcolor Hbold Hitalic.
  assert (Hparts : styleParts style = []).
  { unfold styleParts.
    destruct Hfont as [-> | ->], Hsize as [-> | ->], Hcolor as [-> | ->],
      Hbold as [-> | ->], Hitalic as [-> | ->]; reflexivity. }
  assert (Hsame : styleInstructions oldText newText style
                  = styleInstructions oldText newText noStyle).
  { unfold styleInstructions. now rewrite Hparts. }
  split; [exact Hparts|]. split.
  - unfold textEditPrompt_text. now rewrite Hsame.
  - apply textEditPrompt_includes. rewrite Hsame.
    unfold styleInstructions. cbn [styleParts noStyle]. find_in_pieces.
Qed.

Lemma falsy_fields_are_absent_witness :
  textEditPrompt_text "SALE" "SOLD"
    {| font := Some EmptyString; size := None; color := Some EmptyString;
       bold := Some false; italic := Some false |}
  = textEditPrompt_text "SALE" "SOLD" noStyle
  /\ Js.includes (textEditPrompt_text "SALE" "SOLD" noStyle) "- Weight: Bold" = false
  /\ Js.includes (textEditPrompt_text "SALE" "SOLD" noStyle) "- Style: Italic" = false.
Proof.
  split; [|split; vm_compute; reflexivity].
  apply (falsy_fields_are_absent "SALE" "SOLD"
           {| font := Some EmptyString; size := None; color := Some EmptyString;
              bold := Some false; italic := Some false |});
    first [ left; reflexivity | right; reflexivity ].
Defined.

(** C6, as stated, fails on the filter: the instruction of a filter neither
    mentions skin tone nor says what to do with an ambiguous request. *)
Lemma filter_policy_has_no_skin_tone_directive :
  Js.includes (filterPrompt_text "vintage") skinToneDirective = false
  /\ Js.includes (filterPrompt_text "vintage") "skin" = false
  /\ Js.includes (filterPrompt_text "vintage") "ambiguous" = false.
Proof. repeat split; vm_compute; reflexivity. Qed.

(** C6, amended. The instructions of a localized edit and of an adjustment
    embed, under the heading of the safety policy, both directives: requests
    to adjust skin tone must be fulfilled as standard enhancements, and
    requests to change a person's race or ethnicity must be refused, an
    ambiguous request being resolved toward no change. The instruction of a
    filter embeds, under the same heading, the directive that a filter must
    not alter race or ethnicity by shifting colors and the directive to refuse
    a request that explicitly asks to change a person's race. *)
Theorem safety_policy_clause
    (number : Type) (numberToString : number -> string)
    (userPrompt : string) (hotspot : Hotspot number)
    (adjustmentPrompt filterPrompt : string) :
  Js.includes (editPrompt_text number numberToString userPrompt hotspot)
    ("Safety & Ethics Policy:" ++ Js.newline ++ skinToneDirective
       ++ Js.newline ++ refusalDirective) = true
  /\ Js.includes (adjustmentPrompt_text adjustmentPrompt)
       ("Safety & Ethics Policy:" ++ Js.newline ++ skinToneDirective
          ++ Js.newline ++ refusalDirective) = true
  /\ Js.includes (filterPrompt_text filterPrompt)
       ("Safety & Ethics Policy:" ++ Js.newline ++ filterShiftDirective
          ++ Js.newline ++ filterRefusalDirective) = true.
Proof.
  unfold editPrompt_text, adjustmentPrompt_text, filterPrompt_text.
  repeat split; find_in_pieces.
Qed.

(** ** The image encoder *)

Lemma split_not_nil (sep : ascii) (s : string) : Url.split sep s <> [].
Proof.
  destruct s as [|c s]; simpl; [discriminate|].
  destruct (Ascii.eqb c sep); [discriminate|].
  destruct (Url.split sep s); discriminate.
Qed.

Lemma split_without (sep : ascii) (s : string) :
  without sep s -> Url.split sep s = [s].
Proof.
  unfold without. induction s as [|c s IH]; simpl; intros H; [reflexivity|].
  destruct (Ascii.eqb_spec c sep) as [->|Hc]; [exfalso; apply H; now left|].
  rewrite IH; [reflexivity|]. intros Hin. apply H. now right.
Qed.

Lemma split_at_first (sep : ascii) (header rest : string) :
  without sep header ->
  Url.split sep (header ++ String sep rest) = header :: Url.split sep rest.
Proof.
  unfold without. induction header as [|c header IH]; simpl; intros H.
  - now rewrite Ascii.eqb_refl.
  - destruct (Ascii.eqb_spec c sep) as [->|Hc]; [exfalso; apply H; now left|].
    rewrite IH; [reflexivity|]. intros Hin. apply H. now right.
Qed.

Lemma first_separator (sep : ascii) (s : string) :
  without sep s
  \/ exists header rest, s = header ++ String sep rest /\ without sep header.
Proof.
  unfold without. induction s as [|c s IH]; [left; intros []|].
  destruct (Ascii.eqb_spec c sep) as [->|Hc].
  - right. exists EmptyString, s. split; [reflexivity | intros []].
  - destruct IH as [H | (header & rest & -> & H)].
    + left. simpl. intros [Heq|Hin]; [now apply Hc | now apply H].
    + right. exists (String c header), rest. split; [reflexivity|].
      simpl. intros [Heq|Hin]; [now apply Hc | now apply H].
Qed.

Lemma lazyDotsSemicolon_sound (rest group : string) :
  Url.lazyDotsSemicolon rest = Some group -> matchesAfterColon rest group.
Proof.
  revert group. induction rest as [|c rest IH]; intros group H; [discriminate|].
  simpl in H. destruct (Ascii.eqb_spec c ";") as [->|Hsemi].
  - injection H as <-. exists rest. split; [reflexivity | constructor].
  - destruct (Url.isLineTerminator c) eqn:Hlt; [discriminate|].
    destruct (Url.lazyDotsSemicolon rest) as [g|]; [|discriminate].
    injection H as <-. destruct (IH g eq_refl) as (post & -> & Hplain).
    exists post. split; [reflexivity|]. constructor; [now split | exact Hplain].
Qed.

Lemma lazyDotsSemicolon_complete (rest group : string) :
  matchesAfterColon rest group -> Url.lazyDotsSemicolon rest = Some group.
Proof.
  intros (post & -> & Hplain). unfold plain in Hplain.
  change (group ++ ";" ++ post) with (group ++ String ";" post).
  induction group as [|c group IH]; simpl.
  - reflexivity.
  - inversion Hplain as [|? ? [Hsemi Hlt] Hrest]; subst.
    apply Ascii.eqb_neq in Hsemi. rewrite Hsemi, Hlt.
    now rewrite (IH Hrest).
Qed.

Lemma lazyDotsSemicolon_none (rest : string) :
  Url.lazyDotsSemicolon rest = None <-> forall other, ~ matchesAfterColon rest other.
Proof.
  split.
  - intros Hnone other Hm.
    rewrite (lazyDotsSemicolon_complete _ _ Hm) in Hnone. discriminate.
  - intros H. destruct (Url.lazyDotsSemicolon rest) as [g|] eqn:Hg; [|reflexivity].
    exfalso. exact (H g (lazyDotsSemicolon_sound _ _ Hg)).
Qed.

Lemma matchMime_sound (header group : string) :
  Url.matchMime header = Some group -> mimeSegment header group.
Proof.
  induction header as [|c header IH]; intros H; [discriminate|].
  simpl in H.
  assert (Hlater : Url.matchMime header = Some group ->
            (c = ":"%char -> Url.lazyDotsSemicolon header = None) ->
            mimeSegment (String c header) group).
  { intros Hm Hcolon. destruct (IH Hm) as (pre & rest & -> & Hat & Hleft).
    exists (String c pre), rest. split; [reflexivity|]. split; [exact Hat|].
    intros p1 p2 Hpre other.
    destruct p1 as [|c1 p1]; simpl in Hpre; injection Hpre as Hc Hpre.
    - subst p2. apply lazyDotsSemicolon_none. now apply Hcolon.
    - now apply (Hleft p1 p2). }
  destruct (Ascii.eqb_spec c ":") as [->|Hc].
  - destruct (Url.lazyDotsSemicolon header) as [g|] eqn:Hg.
    + injection H as <-. exists EmptyString, header.
      split; [reflexivity|]. split; [now apply lazyDotsSemicolon_sound|].
      intros [|c1 p1] p2 Hpre; discriminate.
    + now apply Hlater.
  - apply Hlater; [exact H | intros Heq; contradiction].
Qed.

Lemma matchMime_complete (header group : string) :
  mimeSegment header group -> Url.matchMime header = Some group.
Proof.
  intros (pre & rest & -> & Hat & Hleft).
  induction pre as [|c pre IH].
  - simpl. now rewrite (lazyDotsSemicolon_complete _ _ Hat).
  - change (String c pre ++ ":" ++ rest) with (String c (pre ++ ":" ++ rest)).
    cbn [Url.matchMime].
    assert (Hrec : Url.matchMime (pre ++ ":" ++ rest) = Some group).
    { apply IH. intros p1 p2 -> other. now apply (Hleft (String c p1) p2). }
    destruct (Ascii.eqb_spec c ":") as [->|Hc]; [|exact Hrec].
    assert (Hnone : Url.lazyDotsSemicolon (pre ++ ":" ++ rest) = None).
    { apply lazyDotsSemicolon_none. now apply (Hleft EmptyString pre). }
    now rewrite Hnone.
Qed.

Lemma partOfDataUrl_without_comma (dataUrl : string) :
  without "," dataUrl -> partOfDataUrl dataUrl = Throw (Error "Invalid data URL").
Proof. intros H. unfold partOfDataUrl. now rewrite (split_without _ _ H). Qed.

Lemma partOfDataUrl_with_comma (header rest : string) :
  without "," header ->
  partOfDataUrl (header ++ "," ++ rest)
  = match Url.matchMime header with
    | Some (String c mime) =>
        Return {| part_text := None;
                  inlineData :=
                    Some {| mimeType := Some (String c mime);
                            data := nth_error (Url.split "," rest) 0 |} |}
    | _ => Throw (Error "Could not parse MIME type from data URL")
    end.
Proof.
  intros H. unfold partOfDataUrl.
  change (header ++ "," ++ rest) with (header ++ String "," rest).
  rewrite (split_at_first _ _ _ H).
  destruct (Url.split "," rest) as [|seg segs] eqn:Hsplit;
    [now apply split_not_nil in Hsplit|].
  cbn [List.length Nat.ltb Nat.leb nth nth_error].
  destruct (Url.matchMime header) as [[|c mime]|]; reflexivity.
Qed.

Lemma run_fileToPart (w : World) (file : File) :
  run w (fileToPart file)
  = match fileReader w file with
    | Return dataUrl => partOfDataUrl dataUrl
    | Throw e => Throw e
    end.
Proof. unfold fileToPart. simpl. destruct (fileReader w file); reflexivity. Qed.

Lemma payload_segment (payload rest : string) :
  without "," payload ->
  rest = EmptyString \/ Js.startsWith rest "," = true ->
  nth_error (Url.split "," (payload ++ rest)) 0 = Some payload.
Proof.
  intros Hpayload [-> | Hrest].
  - rewrite append_nil_r. now rewrite (split_without _ _ Hpayload).
  - destruct (startsWith_inv _ _ Hrest) as [t ->].
    change ("," ++ t) with (String ","%char t).
    now rewrite (split_at_first _ _ _ Hpayload).
Qed.

(** C7. [fileToPart] fails exactly when the file cannot be read, or the data
    URL read from it has no comma, or the segment before its first comma has
    no mime type of the form [:<mime>;] (the regular expression does not
    match, or captures nothing). On every other data URL it returns the
    mime type found in the segment before the first comma together with the
    payload, which is the segment after that comma. *)
Theorem encoder_fails_exactly_when (w : World) (file : File) :
  ((exists e, run w (fileToPart file) = Throw e) <->
   (exists e, fileReader w file = Throw e)
   \/ (exists dataUrl,
         fileReader w file = Return dataUrl
         /\ (without "," dataUrl
             \/ exists header rest,
                  dataUrl = header ++ "," ++ rest
                  /\ without "," header
                  /\ forall mime, mimeSegment header mime -> mime = EmptyString)))
  /\ (forall dataUrl header payload rest mime,
        fileReader w file = Return dataUrl ->
        dataUrl = header ++ "," ++ payload ++ rest ->
        without "," header ->
        without "," payload ->
        rest = EmptyString \/ Js.startsWith rest "," = true ->
        mimeSegment header mime ->
        mime <> EmptyString ->
        run w (fileToPart file)
        = Return {| part_text := None;
                    inlineData :=
                      Some {| mimeType := Some mime; data := Some payload |} |}).
Proof.
  rewrite run_fileToPart. split; [split|].
  - intros [e He]. destruct (fileReader w file) as [dataUrl|e0]; [|left; now exists e0].
    right. exists dataUrl. split; [reflexivity|].
    destruct (first_separator "," dataUrl) as [H | (header & rest & -> & H)];
      [now left | right].
    exists header, rest. split; [reflexivity|]. split; [exact H|].
    intros mime Hmime. apply matchMime_complete in Hmime.
    change (header ++ String ","%char rest) with (header ++ "," ++ rest) in He.
    rewrite (partOfDataUrl_with_comma _ _ H), Hmime in He.
    destruct mime; [reflexivity | discriminate].
  - intros [[e He] | (dataUrl & Hread & Hbad)]; [rewrite He; now exists e|].
    rewrite Hread. destruct Hbad as [H | (header & rest & -> & H & Hmime)].
    + rewrite (partOfDataUrl_without_comma _ H). eexists; reflexivity.
    + rewrite (partOfDataUrl_with_comma _ _ H).
      destruct (Url.matchMime header) as [[|c mime]|] eqn:Hm;
        try (eexists; reflexivity).
      apply matchMime_sound, Hmime in Hm. discriminate.
  - intros dataUrl header payload rest mime Hread -> Hheader Hpayload Hrest Hmime Hne.
    rewrite Hread, (partOfDataUrl_with_comma _ _ Hheader).
    rewrite (matchMime_complete _ _ Hmime), (payload_segment _ _ Hpayload Hrest).
    destruct mime; [contradiction | reflexivity].
Qed.

Lemma encoder_fails_exactly_when_witness :
  run (worldOf (Return "data:image/png;base64,iVBORw0KGgo=")
         (Throw (NotAnError "unused")) (Throw (NotAnError "unused")))
    (fileToPart sampleFile)
  = Return (imagePart (pngBlob "iVBORw0KGgo=")).
Proof.
  apply (proj2 (encoder_fails_exactly_when
                  (worldOf (Return "data:image/png;base64,iVBORw0KGgo=")
                     (Throw (NotAnError "unused")) (Throw (NotAnError "unused")))
                  sampleFile)
           "data:image/png;base64,iVBORw0KGgo="
           "data:image/png;base64" "iVBORw0KGgo=" EmptyString "image/png").
  - reflexivity.
  - reflexivity.
  - unfold without. simpl. intuition discriminate.
  - unfold without. simpl. intuition discriminate.
  - now left.
  - apply matchMime_sound. reflexivity.
  - discriminate.
Defined.

(** ** The facades of description and of generation from a prompt *)

Lemma run_describe (w : World) (file : File) (part : Part)
    (response : GenerateContentResponse) :
  run w (fileToPart file) = Return part ->
  models_generateContent w
    {| model := "gemini-2.5-flash";
       contents := {| parts := Some [part; textPart descriptionPrompt_text] |};
       config := None |} = Return response ->
  run w (generateImageDescription file)
  = if Js.truthy (promptFeedback response ?. blockReason) then
      Throw (Error ("Request was blocked. Reason: "
                      ++ Js.tpl (promptFeedback response ?. blockReason) ++ ". "
                      ++ Js.orElse (promptFeedback response ?. blockReasonMessage)
                           EmptyString))
    else if Js.truthy (text response) then Return (Js.trim (Js.tpl (text response)))
    else
      Throw (Error ("The AI model did not return a text description. Reason: "
                      ++ Js.orElse (Js.first (candidates response) ?. finishReason)
                           "Unknown"
                      ++ ". This can happen due to safety filters.")).
Proof.
  rewrite run_fileToPart. unfold generateImageDescription, fileToPart.
  intros Hpart Hresponse. simpl.
  destruct (fileReader w file) as [dataUrl|e]; [|discriminate].
  simpl. rewrite Hpart. simpl. rewrite Hresponse. simpl.
  destruct (Js.truthy (promptFeedback response ?. blockReason)); [reflexivity|].
  destruct (Js.truthy (text response)); reflexivity.
Qed.

(** X7. The classifier of a description: a block indicator comes first; then a
    text that is not empty is returned trimmed; then the error that carries
    the finish reason, or "Unknown" when there is none. *)
Lemma description_classifier (w : World) (file : File) (part : Part)
    (response : GenerateContentResponse) :
  run w (fileToPart file) = Return part ->
  models_generateContent w
    {| model := "gemini-2.5-flash";
       contents := {| parts := Some [part; textPart descriptionPrompt_text] |};
       config := None |} = Return response ->
  (forall feedback reason,
      promptFeedback response = Some feedback ->
      blockReason feedback = Some reason -> reason <> EmptyString ->
      run w (generateImageDescription file)
      = Throw (Error ("Request was blocked. Reason: " ++ reason ++ ". "
                        ++ match blockReasonMessage feedback with
                           | Some message => message
                           | None => EmptyString
                           end)))
  /\ (Js.truthy (promptFeedback response ?. blockReason) = false ->
      forall t, text response = Some t -> t <> EmptyString ->
      run w (generateImageDescription file) = Return (Js.trim t))
  /\ (Js.truthy (promptFeedback response ?. blockReason) = false ->
      text response = None \/ text response = Some EmptyString ->
      run w (generateImageDescription file)
      = Throw (Error ("The AI model did not return a text description. Reason: "
                        ++ Js.orElse (Js.first (candidates response) ?. finishReason)
                             "Unknown"
                        ++ ". This can happen due to safety filters."))).
Proof.
  intros Hpart Hresponse. rewrite (run_describe _ _ _ _ Hpart Hresponse).
  repeat split.
  - intros feedback reason Hfb Hreason Hne. rewrite Hfb.
    cbn [Js.chain]. rewrite Hreason, (truthy_nonempty _ Hne).
    cbn [Js.tpl]. unfold Js.orElse.
    destruct (blockReasonMessage feedback) as [[|c m]|]; reflexivity.
  - intros Hblock t Ht Hne. now rewrite Hblock, Ht, (truthy_nonempty _ Hne).
  - intros Hblock [Ht | Ht]; now rewrite Hblock, Ht.
Qed.

(** C9, at the input on which the code departs from it. The model answers a
    description request with a text made of one space: no block indicator,
    and a text that is present but empty once trimmed. The claim calls for the
    no-description error; [generateImageDescription] returns the empty string
    as the description. *)
Theorem blank_description_is_returned :
  Js.truthy (promptFeedback (finishedWith (Some "STOP") (Some " ")) ?. blockReason) = false
  /\ Js.trim " " = EmptyString
  /\ run (worldOf (Return "data:image/png;base64,iVBORw0KGgo=")
            (Return (finishedWith (Some "STOP") (Some " ")))
            (Throw (NotAnError "unused")))
       (generateImageDescription sampleFile)
     = Return EmptyString.
Proof. repeat split. Qed.

(** C8. [generateImageFromPrompt] sends one request, to the image model, with
    the prompt unchanged and the configuration of one image, "image/png" and
    "1:1". An answer without generated image makes it throw the no-image
    error. Whatever goes wrong on the way, a rejected request included, what
    it throws is an [Error]: the message of the failure when the failure is
    an [Error], a fixed message otherwise. *)
Theorem generate_from_prompt (w : World) (prompt : string) :
  exists request,
    requests w (generateImageFromPrompt prompt) = [ImagesRequest request]
    /\ images_prompt request = prompt
    /\ images_config request
       = {| numberOfImages := 1; outputMimeType := "image/png"; aspectRatio := "1:1" |}
    /\ (forall response,
          models_generateImages w request = Return response ->
          generatedImages response = None \/ generatedImages response = Some [] ->
          run w (generateImageFromPrompt prompt)
          = Throw (Error "The AI model did not return an image. This might be due to safety filters or the complexity of the prompt."))
    /\ (forall failure,
          models_generateImages w request = Throw failure ->
          run w (generateImageFromPrompt prompt)
          = Throw (Error match failure with
                         | Error message => message
                         | NotAnError _ =>
                             "An unknown error occurred during image generation."
                         end))
    /\ (forall e,
          run w (generateImageFromPrompt prompt) = Throw e ->
          exists message, e = Error message).
Proof.
  exists {| images_model := "imagen-4.0-generate-001";
            images_prompt := prompt;
            images_config :=
              {| numberOfImages := 1; outputMimeType := "image/png";
                 aspectRatio := "1:1" |} |}.
  split; [|split; [|split; [|split; [|split]]]].
  - unfold generateImageFromPrompt, generateImages. simpl. f_equal.
    destruct (models_generateImages w _) as [response|failure].
    + destruct (generatedImages response) as [[|first others]|]; simpl;
        try reflexivity.
      destruct (image first); reflexivity.
    + destruct failure; reflexivity.
  - reflexivity.
  - reflexivity.
  - intros response Hresponse Hnone.
    unfold generateImageFromPrompt, generateImages. simpl. rewrite Hresponse.
    destruct Hnone as [-> | ->]; reflexivity.
  - intros failure Hfailure.
    unfold generateImageFromPrompt, generateImages. simpl. rewrite Hfailure.
    destruct failure; reflexivity.
  - intros e. unfold generateImageFromPrompt, generateImages. simpl.
    destruct (models_generateImages w _) as [response|failure].
    + destruct (generatedImages response) as [[|first others]|]; simpl;
        try (intros [= <-]; eexists; reflexivity).
      destruct (image first); simpl; [discriminate|].
      intros [= <-]; eexists; reflexivity.
    + destruct failure; simpl; intros [= <-]; eexists; reflexivity.
Qed.

Lemma generate_from_prompt_witness :
  run (worldOf (Throw (NotAnError "unused")) (Throw (NotAnError "unused"))
         (Return {| generatedImages := Some [] |}))
    (generateImageFromPrompt "a red bicycle")
  = Throw (Error "The AI model did not return an image. This might be due to safety filters or the complexity of the prompt.").
Proof.
  destruct (generate_from_prompt
              (worldOf (Throw (NotAnError "unused")) (Throw (NotAnError "unused"))
                 (Return {| generatedImages := Some [] |}))
              "a red bicycle") as (request & _ & _ & _ & Hnone & _).
  apply (Hnone {| generatedImages := Some [] |}); [reflexivity | now right].
Defined.

(** * Further properties *)

(** ** The response classifier, beyond the four branches *)

Lemma firstInlineData_found (ps : list Part) (b : Blob) :
  firstInlineData ps = Some b ->
  exists before part after,
    ps = (before ++ part :: after)%list /\ Forall noInlineData before
    /\ inlineData part = Some b.
Proof.
  induction ps as [|q ps IH]; intros H; [discriminate|].
  simpl in H. destruct (inlineData q) as [b'|] eqn:Hq.
  - injection H as ->. exists [], q, ps. repeat split; [constructor | exact Hq].
  - destruct (IH H) as (before & part & after & -> & Hnone & Hpart).
    exists (q :: before), part, after.
    repeat split; [constructor; assumption | exact Hpart].
Qed.

(** X1. [handleApiResponse] returns only an image that the response holds:
    when it returns, the response has no block indicator, the parts of its
    first candidate hold a part with inline data, and what is returned is the
    data URI of the first such part; it starts with [data:]. *)
Theorem returns_only_an_image
    (response : GenerateContentResponse) (context uri : string) :
  handleApiResponse response context = Return uri ->
  Js.truthy (promptFeedback response ?. blockReason) = false
  /\ Js.startsWith uri "data:" = true
  /\ exists before part after b,
       responseParts response = Some (before ++ part :: after)%list
       /\ Forall noInlineData before
       /\ inlineData part = Some b
       /\ uri = "data:" ++ Js.tpl (mimeType b) ++ ";base64," ++ Js.tpl (data b).
Proof.
  unfold handleApiResponse.
  destruct (Js.truthy (promptFeedback response ?. blockReason)); [discriminate|].
  destruct (responseParts response) as [ps|] eqn:Hps.
  - destruct (firstInlineData ps) as [b|] eqn:Hb.
    + intros [= <-]. split; [reflexivity|]. split; [reflexivity|].
      destruct (firstInlineData_found _ _ Hb) as (before & part & after & -> & Hn & Hp).
      exists before, part, after, b. repeat split; assumption.
    + cbv zeta. destruct (_ && _); discriminate.
  - cbv zeta. destruct (_ && _); discriminate.
Qed.

Lemma returns_only_an_image_witness :
  Js.startsWith "data:image/jpeg;base64,Zmlyc3Q=" "data:" = true.
Proof.
  exact (proj1 (proj2 (returns_only_an_image twoImages "filter"
                         "data:image/jpeg;base64,Zmlyc3Q=" eq_refl))).
Defined.

(** X2. [handleApiResponse] looks at the first candidate only: the candidates
    after the first never change the outcome, so an image that sits in a
    later candidate is not found. *)
Theorem only_the_first_candidate
    (response : GenerateContentResponse) (context : string)
    (c : Candidate) (others : list Candidate) :
  candidates response = Some (c :: others) ->
  handleApiResponse response context
  = handleApiResponse
      {| promptFeedback := promptFeedback response;
         candidates := Some [c];
         text := text response |}
      context.
Proof.
  intros Hc. unfold handleApiResponse, responseParts. rewrite Hc. reflexivity.
Qed.

Lemma only_the_first_candidate_witness :
  handleApiResponse imageInSecondCandidate "edit"
  = Throw (Error "The AI model did not return an image for the edit. This can happen due to safety filters or if the request is too complex. Please try rephrasing your prompt to be more direct.").
Proof.
  rewrite (only_the_first_candidate imageInSecondCandidate "edit"
             (candidateOf [textPart "First try."] (Some "STOP"))
             [candidateOf [imagePart (pngBlob "c2Vjb25k")] (Some "STOP")] eq_refl).
  reflexivity.
Defined.

(** ** Data URIs: what the classifier writes, the encoder reads *)

Lemma without_app (c : ascii) (a b : string) :
  without c (a ++ b) <-> without c a /\ without c b.
Proof.
  unfold without. induction a as [|ch a IH]; simpl; tauto.
Qed.

Lemma dataUri_decodes (mime payload : string) :
  mime <> EmptyString ->
  plain mime ->
  without "," mime ->
  without "," payload ->
  partOfDataUrl (dataUri mime payload)
  = Return (imagePart {| mimeType := Some mime; data := Some payload |}).
Proof.
  intros Hne Hplain Hmime Hpayload.
  assert (Hheader : without "," ("data:" ++ mime ++ ";base64")).
  { apply without_app. split; [|apply without_app; split; [exact Hmime|]];
      unfold without; simpl; intuition discriminate. }
  assert (Hsegment : mimeSegment ("data:" ++ mime ++ ";base64") mime).
  { exists "data", (mime ++ ";base64"). split; [reflexivity|]. split.
    - exists "base64". split; [reflexivity | exact Hplain].
    - intros p1 p2 Hpre.
      destruct p1 as [|? [|? [|? [|? [|? ?]]]]]; discriminate. }
  replace (dataUri mime payload)
    with (("data:" ++ mime ++ ";base64") ++ "," ++ payload)
    by (unfold dataUri; now rewrite !append_assoc).
  rewrite (partOfDataUrl_with_comma _ _ Hheader).
  rewrite (matchMime_complete _ _ Hsegment), (split_without _ _ Hpayload).
  destruct mime; [contradiction | reflexivity].
Qed.

(** X3. An image returned by [handleApiResponse] reads back: when the mime
    type of the image part is not empty and holds no [;], no line terminator
    and no comma, and its payload holds no comma, the encoder splits the
    returned data URI into that very mime type and payload. *)
Theorem returned_image_reads_back
    (response : GenerateContentResponse) (context uri : string)
    (ps : list Part) (b : Blob) (mime payload : string) :
  handleApiResponse response context = Return uri ->
  responseParts response = Some ps ->
  firstInlineData ps = Some b ->
  mimeType b = Some mime ->
  data b = Some payload ->
  mime <> EmptyString ->
  plain mime ->
  without "," mime ->
  without "," payload ->
  partOfDataUrl uri = Return (imagePart b).
Proof.
  intros Hret Hps Hb Hmime Hdata Hne Hplain Hm Hp.
  unfold handleApiResponse in Hret.
  destruct (Js.truthy (promptFeedback response ?. blockReason)); [discriminate|].
  rewrite Hps, Hb, Hmime, Hdata in Hret. injection Hret as <-.
  destruct b as [m d]. simpl in Hmime, Hdata. subst m d.
  exact (dataUri_decodes mime payload Hne Hplain Hm Hp).
Qed.

Lemma returned_image_reads_back_witness :
  partOfDataUrl "data:image/jpeg;base64,Zmlyc3Q="
  = Return (imagePart {| mimeType := Some "image/jpeg"; data := Some "Zmlyc3Q=" |}).
Proof.
  apply (returned_image_reads_back twoImages "filter"
           "data:image/jpeg;base64,Zmlyc3Q="
           [textPart "Here you are.";
            imagePart {| mimeType := Some "image/jpeg"; data := Some "Zmlyc3Q=" |};
            imagePart (pngBlob "c2Vjb25k")]
           {| mimeType := Some "image/jpeg"; data := Some "Zmlyc3Q=" |}
           "image/jpeg" "Zmlyc3Q=");
    try reflexivity; try discriminate.
  - repeat constructor; discriminate.
  - unfold without. simpl. intuition discriminate.
  - unfold without. simpl. intuition discriminate.
Defined.

Lemma split_head_without (sep : ascii) (s : string) :
  exists seg segs, Url.split sep s = seg :: segs /\ without sep seg.
Proof.
  induction s as [|c s (seg & segs & IH & Hseg)].
  - exists EmptyString, []. split; [reflexivity | intros []].
  - simpl. destruct (Ascii.eqb_spec c sep) as [->|Hc].
    + exists EmptyString, (Url.split sep s). split; [reflexivity | intros []].
    + rewrite IH. exists (String c seg), segs. split; [reflexivity|].
      unfold without in *. simpl. intros [Heq|Hin]; [now apply Hc | now apply Hseg].
Qed.

Lemma mimeSegment_inside (header mime : string) :
  mimeSegment header mime ->
  plain mime /\ exists before after, header = before ++ mime ++ after.
Proof.
  intros (pre & rest & -> & (post & -> & Hplain) & _).
  split; [exact Hplain|].
  exists (pre ++ ":"), (";" ++ post). now rewrite !append_assoc.
Qed.

(** X4. What the encoder returns is always a part with inline data whose mime
    type is not empty and holds no [;], no line terminator and no comma, and
    whose payload holds no comma. Writing the two as a data URI and encoding
    that again gives the same part. *)
Theorem encoder_output_is_stable (w : World) (file : File) (part : Part) :
  run w (fileToPart file) = Return part ->
  exists mime payload,
    part = imagePart {| mimeType := Some mime; data := Some payload |}
    /\ mime <> EmptyString
    /\ plain mime
    /\ without "," mime
    /\ without "," payload
    /\ partOfDataUrl (dataUri mime payload) = Return part.
Proof.
  rewrite run_fileToPart.
  destruct (fileReader w file) as [dataUrl|e]; [|discriminate].
  destruct (first_separator "," dataUrl) as [H | (header & rest & -> & H)].
  - now rewrite (partOfDataUrl_without_comma _ H).
  - change (header ++ String ","%char rest) with (header ++ "," ++ rest).
    rewrite (partOfDataUrl_with_comma _ _ H).
    destruct (Url.matchMime header) as [[|c mime]|] eqn:Hm; try discriminate.
    destruct (split_head_without "," rest) as (payload & segs & Hsplit & Hpayload).
    rewrite Hsplit. cbn [nth_error]. intros [= <-].
    destruct (mimeSegment_inside _ _ (matchMime_sound _ _ Hm))
      as (Hplain & before & after & Hheader).
    assert (Hmime : without "," (String c mime)).
    { rewrite Hheader in H. apply without_app in H as [_ H].
      now apply without_app in H as [H _]. }
    exists (String c mime), payload.
    split; [reflexivity|]. split; [discriminate|].
    split; [exact Hplain|]. split; [exact Hmime|]. split; [exact Hpayload|].
    apply dataUri_decodes; [discriminate | assumption..].
Qed.

Lemma encoder_output_is_stable_witness :
  exists mime payload,
    imagePart (pngBlob "iVBORw0KGgo=")
    = imagePart {| mimeType := Some mime; data := Some payload |}
    /\ mime <> EmptyString
    /\ plain mime
    /\ without "," mime
    /\ without "," payload
    /\ partOfDataUrl (dataUri mime payload) = Return (imagePart (pngBlob "iVBORw0KGgo=")).
Proof.
  apply (encoder_output_is_stable
           (worldOf (Return "data:image/png;base64,iVBORw0KGgo=,ignored")
              (Throw (NotAnError "unused")) (Throw (NotAnError "unused")))
           sampleFile).
  reflexivity.
Defined.

(** ** The facades that send an image *)

Lemma sends_image_and_instruction (w : World) (file : File)
    (instruction context : string) :
  sendsImageAndInstruction w
    (await originalImagePart := fileToPart file in
     await response := generateContent (imageRequest originalImagePart instruction) in
     Done (handleApiResponse response context))
    file instruction context.
Proof.
  unfold sendsImageAndInstruction. rewrite run_fileToPart.
  unfold fileToPart, readAsDataURL, generateContent, imageRequest. simpl.
  destruct (fileReader w file) as [dataUrl|e0]; simpl.
  - destruct (partOfDataUrl dataUrl) as [part0|e0]; simpl; split.
    + discriminate.
    + intros part [= <-]. split.
      * f_equal. destruct (models_generateContent w _); reflexivity.
      * split; intros r Hr; rewrite Hr; reflexivity.
    + intros e [= <-]. now split.
    + discriminate.
  - split; [intros e [= <-]; now split | discriminate].
Qed.

(** X5. The five facades that produce an image work alike. When the image
    cannot be encoded they throw the failure of the encoder and send nothing
    to the model. Otherwise each sends one request to the image model, holding
    the encoded image and then its own instruction, and asking for an image
    and a text; a rejected request is thrown as it is, without wrapping, and
    an answer is classified by [handleApiResponse] under the label of the
    facade: "edit", "filter", "adjustment", "background removal" or
    "text edit". *)
Theorem image_facades_send_image_and_instruction
    (w : World) (file : File)
    (number : Type) (numberToString : number -> string)
    (userPrompt : string) (hotspot : Hotspot number)
    (filterPrompt adjustmentPrompt oldText newText : string) (style : TextStyle) :
  sendsImageAndInstruction w
    (generateEditedImage number numberToString file userPrompt hotspot) file
    (editPrompt_text number numberToString userPrompt hotspot) "edit"
  /\ sendsImageAndInstruction w (generateFilteredImage file filterPrompt) file
       (filterPrompt_text filterPrompt) "filter"
  /\ sendsImageAndInstruction w (generateAdjustedImage file adjustmentPrompt) file
       (adjustmentPrompt_text adjustmentPrompt) "adjustment"
  /\ sendsImageAndInstruction w (generateRemovedBackground file) file
       removeBackgroundPrompt_text "background removal"
  /\ sendsImageAndInstruction w (generateTextEditImage file oldText newText style) file
       (textEditPrompt_text oldText newText style) "text edit".
Proof.
  split; [|split; [|split; [|split]]]; apply sends_image_and_instruction.
Qed.

Lemma image_facades_send_image_and_instruction_witness :
  run (worldOf (Return "data:image/jpeg;base64,/9j/4AAQ")
         (Return twoImages) (Throw (NotAnError "unused")))
    (generateRemovedBackground sampleFile)
  = Return "data:image/jpeg;base64,Zmlyc3Q="
  /\ run (worldOf (Return "data:image/jpeg;base64,/9j/4AAQ")
            (Throw (NotAnError "offline")) (Throw (NotAnError "unused")))
       (generateFilteredImage sampleFile "vintage")
     = Throw (NotAnError "offline")
  /\ requests (worldOf (Return "not a data URL")
                 (Return twoImages) (Throw (NotAnError "unused")))
       (generateAdjustedImage sampleFile "warmer")
     = [].
Proof.
  split; [|split].
  - destruct (image_facades_send_image_and_instruction
                (worldOf (Return "data:image/jpeg;base64,/9j/4AAQ")
                   (Return twoImages) (Throw (NotAnError "unused")))
                sampleFile unit (fun _ => EmptyString) EmptyString
                {| x := tt; y := tt |} EmptyString EmptyString EmptyString
                EmptyString noStyle) as (_ & _ & _ & (_ & Hsent) & _).
    destruct (Hsent _ eq_refl) as (_ & _ & Hanswer).
    rewrite (Hanswer twoImages eq_refl). reflexivity.
  - destruct (image_facades_send_image_and_instruction
                (worldOf (Return "data:image/jpeg;base64,/9j/4AAQ")
                   (Throw (NotAnError "offline")) (Throw (NotAnError "unused")))
                sampleFile unit (fun _ => EmptyString) EmptyString
                {| x := tt; y := tt |} "vintage" EmptyString EmptyString
                EmptyString noStyle) as (_ & (_ & Hsent) & _).
    destruct (Hsent _ eq_refl) as (_ & Hrejected & _).
    exact (Hrejected _ eq_refl).
  - destruct (image_facades_send_image_and_instruction
                (worldOf (Return "not a data URL")
                   (Return twoImages) (Throw (NotAnError "unused")))
                sampleFile unit (fun _ => EmptyString) EmptyString
                {| x := tt; y := tt |} EmptyString "warmer" EmptyString
                EmptyString noStyle) as (_ & _ & (Hfailed & _) & _).
    exact (proj2 (Hfailed _ eq_refl)).
Defined.

(** ** The description facade *)

(** X6. [generateImageDescription] sends nothing when the image cannot be
    encoded and throws the failure of the encoder. Otherwise it sends one
    request, to the text model, holding the encoded image and then the
    instruction, without asking for response modalities; a rejected request is
    thrown as it is. *)
Theorem description_request (w : World) (file : File) :
  (forall e, run w (fileToPart file) = Throw e ->
     run w (generateImageDescription file) = Throw e
     /\ requests w (generateImageDescription file) = [])
  /\ (forall part, run w (fileToPart file) = Return part ->
     let request :=
       {| model := "gemini-2.5-flash";
          contents := {| parts := Some [part; textPart descriptionPrompt_text] |};
          config := None |} in
     requests w (generateImageDescription file) = [ContentRequest request]
     /\ (forall e, models_generateContent w request = Throw e ->
           run w (generateImageDescription file) = Throw e)).
Proof.
  rewrite run_fileToPart.
  unfold generateImageDescription, fileToPart, readAsDataURL, generateContent. simpl.
  destruct (fileReader w file) as [dataUrl|e0]; simpl.
  - destruct (partOfDataUrl dataUrl) as [part0|e0]; simpl; split.
    + discriminate.
    + intros part [= <-]. split.
      * f_equal. destruct (models_generateContent w _) as [r|e]; simpl; [|reflexivity].
        destruct (Js.truthy (promptFeedback r ?. blockReason)); [reflexivity|].
        destruct (Js.truthy (text r)); reflexivity.
      * intros e He. now rewrite He.
    + intros e [= <-]. now split.
    + discriminate.
  - split; [intros e [= <-]; now split | discriminate].
Qed.

Lemma description_request_witness :
  requests (worldOf (Return "no comma") (Return twoImages) (Throw (NotAnError "unused")))
    (generateImageDescription sampleFile) = []
  /\ run (worldOf (Return "data:image/png;base64,iVBORw0KGgo=")
            (Throw (Error "401")) (Throw (NotAnError "unused")))
       (generateImageDescription sampleFile) = Throw (Error "401").
Proof.
  split.
  - exact (proj2 (proj1 (description_request
                           (worldOf (Return "no comma") (Return twoImages)
                              (Throw (NotAnError "unused"))) sampleFile)
                    _ eq_refl)).
  - exact (proj2 (proj2 (description_request
                           (worldOf (Return "data:image/png;base64,iVBORw0KGgo=")
                              (Throw (Error "401")) (Throw (NotAnError "unused")))
                           sampleFile) _ eq_refl)
             _ eq_refl).
Defined.

Lemma description_classifier_witness :
  run (worldOf (Return "data:image/png;base64,iVBORw0KGgo=")
         (Return (finishedWith (Some "STOP") (Some " A red bicycle. ")))
         (Throw (NotAnError "unused")))
    (generateImageDescription sampleFile)
  = Return "A red bicycle."
  /\ run (worldOf (Return "data:image/png;base64,iVBORw0KGgo=")
            (Return (finishedWith (Some "MAX_TOKENS") None))
            (Throw (NotAnError "unused")))
       (generateImageDescription sampleFile)
     = Throw (Error "The AI model did not return a text description. Reason: MAX_TOKENS. This can happen due to safety filters.").
Proof.
  split.
  - destruct (description_classifier
                (worldOf (Return "data:image/png;base64,iVBORw0KGgo=")
                   (Return (finishedWith (Some "STOP") (Some " A red bicycle. ")))
                   (Throw (NotAnError "unused")))
                sampleFile (imagePart (pngBlob "iVBORw0KGgo="))
                (finishedWith (Some "STOP") (Some " A red bicycle. "))
                eq_refl eq_refl) as (_ & Htext & _).
    apply (Htext eq_refl " A red bicycle. " eq_refl). discriminate.
  - destruct (description_classifier
                (worldOf (Return "data:image/png;base64,iVBORw0KGgo=")
                   (Return (finishedWith (Some "MAX_TOKENS") None))
                   (Throw (NotAnError "unused")))
                sampleFile (imagePart (pngBlob "iVBORw0KGgo="))
                (finishedWith (Some "MAX_TOKENS") None)
                eq_refl eq_refl) as (_ & _ & Hnone).
    apply (Hnone eq_refl). now left.
Defined.

Lemma trimStart_head (s : string) :
  Js.trimStart s = EmptyString
  \/ exists c t, Js.trimStart s = String c t /\ Js.isWhiteSpace c = false.
Proof.
  induction s as [|c s IH]; [now left|].
  simpl. destruct (Js.isWhiteSpace c) eqn:Hc; [exact IH|].
  right. now exists c, s.
Qed.

Lemma trimEnd_head (c : ascii) (s : string) :
  Js.isWhiteSpace c = false -> exists t, Js.trimEnd (String c s) = String c t.
Proof.
  intros Hc. simpl. rewrite Hc.
  destruct (Js.trimEnd s) as [|d t]; eexists; reflexivity.
Qed.

Lemma trimEnd_idempotent (s : string) : Js.trimEnd (Js.trimEnd s) = Js.trimEnd s.
Proof.
  induction s as [|c s IH]; [reflexivity|].
  simpl. destruct (Js.trimEnd s) as [|d t] eqn:Ht.
  - destruct (Js.isWhiteSpace c) eqn:Hc; simpl; [reflexivity | now rewrite Hc].
  - change (Js.trimEnd (String c (String d t))) with
      match Js.trimEnd (String d t) with
      | EmptyString =>
          if Js.isWhiteSpace c then EmptyString else String c EmptyString
      | String a u => String c (String a u)
      end.
    now rewrite IH.
Qed.

Lemma trim_idempotent (s : string) : Js.trim (Js.trim s) = Js.trim s.
Proof.
  unfold Js.trim.
  destruct (trimStart_head s) as [-> | (c & t & -> & Hc)]; [reflexivity|].
  destruct (trimEnd_head c t Hc) as [u Hu]. rewrite Hu.
  cbn [Js.trimStart]. rewrite Hc, <- Hu. apply trimEnd_idempotent.
Qed.

(** X8. A description that [generateImageDescription] returns is trimmed:
    white space at either end of the text of the model is gone, and trimming
    the description again changes nothing. *)
Theorem returned_description_is_trimmed (w : World) (file : File) (description : string) :
  run w (generateImageDescription file) = Return description ->
  Js.trim description = description.
Proof.
  unfold generateImageDescription, fileToPart, readAsDataURL, generateContent. simpl.
  destruct (fileReader w file) as [dataUrl|e0]; simpl; [|discriminate].
  destruct (partOfDataUrl dataUrl) as [part0|e0]; simpl; [|discriminate].
  destruct (models_generateContent w _) as [r|e]; simpl; [|discriminate].
  destruct (Js.truthy (promptFeedback r ?. blockReason)); [discriminate|].
  destruct (Js.truthy (text r)); [|discriminate].
  simpl. intros [= <-]. apply trim_idempotent.
Qed.

Lemma returned_description_is_trimmed_witness :
  Js.trim "A red bicycle." = "A red bicycle.".
Proof.
  apply (returned_description_is_trimmed
           (worldOf (Return "data:image/png;base64,iVBORw0KGgo=")
              (Return (finishedWith (Some "STOP") (Some " A red bicycle. ")))
              (Throw (NotAnError "unused")))
           sampleFile).
  reflexivity.
Defined.

(** ** Generation from a prompt, when it succeeds *)

(** X9. When the image model answers with at least one generated image,
    [generateImageFromPrompt] returns the bytes of the first one as a PNG
    data URI, whatever comes after it; and when those bytes hold no comma the
    encoder reads the returned URI back as "image/png" with the same bytes. *)
Theorem generated_image_is_the_first
    (w : World) (prompt : string) (response : GenerateImagesResponse)
    (first : GeneratedImage) (others : list GeneratedImage) (img : Image) :
  models_generateImages w
    {| images_model := "imagen-4.0-generate-001";
       images_prompt := prompt;
       images_config :=
         {| numberOfImages := 1; outputMimeType := "image/png"; aspectRatio := "1:1" |} |}
    = Return response ->
  generatedImages response = Some (first :: others) ->
  image first = Some img ->
  run w (generateImageFromPrompt prompt)
    = Return ("data:image/png;base64," ++ Js.tpl (imageBytes img))
  /\ (forall bytes, imageBytes img = Some bytes -> without "," bytes ->
      partOfDataUrl ("data:image/png;base64," ++ bytes)
      = Return (imagePart (pngBlob bytes))).
Proof.
  intros Hresponse Himages Himage. split.
  - unfold generateImageFromPrompt, generateImages. simpl.
    now rewrite Hresponse, Himages, Himage.
  - intros bytes _ Hbytes.
    apply (dataUri_decodes "image/png" bytes); [discriminate | | | exact Hbytes].
    + repeat constructor; discriminate.
    + unfold without. simpl. intuition discriminate.
Qed.

Lemma generated_image_is_the_first_witness :
  run (worldOf (Throw (NotAnError "unused")) (Throw (NotAnError "unused"))
         (Return {| generatedImages :=
                      Some [ {| image := Some {| imageBytes := Some "Zmlyc3Q=" |} |};
                             {| image := None |} ] |}))
    (generateImageFromPrompt "a red bicycle")
  = Return "data:image/png;base64,Zmlyc3Q=".
Proof.
  apply (generated_image_is_the_first
           (worldOf (Throw (NotAnError "unused")) (Throw (NotAnError "unused"))
              (Return {| generatedImages :=
                           Some [ {| image := Some {| imageBytes := Some "Zmlyc3Q=" |} |};
                                  {| image := None |} ] |}))
           "a red bicycle" _ _ _ {| imageBytes := Some "Zmlyc3Q=" |}
           eq_refl eq_refl eq_refl).
Defined.

(** ** The instructions, whatever the user typed *)

(** [p] occurs in [s] after the text [a]. *)
Ltac occurs_after a :=
  eapply (includes_intro _ a); repeat rewrite append_assoc; reflexivity.

(** X10. Every instruction states the request of the user as typed, between
    double quotes: the request of a localized edit, of a filter and of an
    adjustment, and both texts of a text replacement; the instruction of a
    localized edit also names the two coordinates of the hotspot. *)
Theorem request_is_quoted_verbatim
    (number : Type) (numberToString : number -> string)
    (userPrompt : string) (hotspot : Hotspot number)
    (filterPrompt adjustmentPrompt oldText newText : string) (style : TextStyle) :
  Js.includes (editPrompt_text number numberToString userPrompt hotspot)
    ("User Request: " ++ Js.dquote ++ userPrompt ++ Js.dquote ++ Js.newline) = true
  /\ Js.includes (editPrompt_text number numberToString userPrompt hotspot)
       ("pixel coordinates (x: " ++ numberToString (x hotspot) ++ ", y: "
          ++ numberToString (y hotspot) ++ ").") = true
  /\ Js.includes (filterPrompt_text filterPrompt)
       ("Filter Request: " ++ Js.dquote ++ filterPrompt ++ Js.dquote ++ Js.newline) = true
  /\ Js.includes (adjustmentPrompt_text adjustmentPrompt)
       ("User Request: " ++ Js.dquote ++ adjustmentPrompt ++ Js.dquote ++ Js.newline) = true
  /\ Js.includes (textEditPrompt_text oldText newText style)
       ("Text to find: " ++ Js.dquote ++ oldText ++ Js.dquote ++ Js.newline
          ++ "Text to replace it with: " ++ Js.dquote ++ newText ++ Js.dquote
          ++ Js.newline) = true.
Proof.
  unfold editPrompt_text, filterPrompt_text, adjustmentPrompt_text, textEditPrompt_text.
  split; [|split; [|split; [|split]]].
  - occurs_after "You are an expert photo editor AI. Your task is to perform a natural, localized edit on the provided image based on the user's request.
".
  - eapply (includes_intro _
      ("You are an expert photo editor AI. Your task is to perform a natural, localized edit on the provided image based on the user's request.
User Request: " ++ Js.dquote ++ userPrompt ++ Js.dquote ++ "
Edit Location: Focus on the area around ")).
    repeat rewrite append_assoc. reflexivity.
  - occurs_after "You are an expert photo editor AI. Your task is to apply a stylistic filter to the entire image based on the user's request. Do not change the composition or content, only apply the style.
".
  - occurs_after "You are an expert photo editor AI. Your task is to perform a natural, global adjustment to the entire image based on the user's request.
".
  - occurs_after "You are an expert photo editor AI specializing in typography and photorealistic text integration. Your task is to find and replace text within the provided image.

".
Qed.

Lemma endsWith_app (s t suffix : string) :
  endsWith t suffix -> endsWith (s ++ t) suffix.
Proof.
  intros [before ->]. exists (s ++ before). now rewrite append_assoc.
Qed.

Lemma endsWith_cut (t suffix : string) :
  substring 0 (String.length t - String.length suffix) t ++ suffix = t ->
  endsWith t suffix.
Proof. intros H. eexists. symmetry. exact H. Qed.

(** The last piece of a concatenation ends with [suffix]. *)
Ltac ends_last_piece :=
  repeat rewrite append_assoc;
  repeat apply endsWith_app;
  apply endsWith_cut; vm_compute; reflexivity.

(** X11. The last words of every instruction that asks for an image are the
    output constraint: only the final image, no text. Nothing the user typed
    comes after it. *)
Theorem output_constraint_comes_last
    (number : Type) (numberToString : number -> string)
    (userPrompt : string) (hotspot : Hotspot number)
    (filterPrompt adjustmentPrompt oldText newText : string) (style : TextStyle) :
  endsWith (editPrompt_text number numberToString userPrompt hotspot)
    "Output: Return ONLY the final edited image. Do not return text."
  /\ endsWith (filterPrompt_text filterPrompt)
       "Output: Return ONLY the final filtered image. Do not return text."
  /\ endsWith (adjustmentPrompt_text adjustmentPrompt)
       "Output: Return ONLY the final adjusted image. Do not return text."
  /\ endsWith removeBackgroundPrompt_text
       "Output: Return ONLY the final image with the transparent background. Do not return text."
  /\ endsWith (textEditPrompt_text oldText newText style)
       "Output: Return ONLY the final edited image in the same resolution. Do not return any text, explanations, or dialogue.".
Proof.
  unfold editPrompt_text, filterPrompt_text, adjustmentPrompt_text,
    removeBackgroundPrompt_text, textEditPrompt_text.
  split; [|split; [|split; [|split]]]; ends_last_piece.
Qed.

(** ** The style lines *)

Lemma fieldLine_setText (label : string) (value : option string) :
  fieldLine label value
  = match setText value with
    | Some t => [label ++ t]
    | None => []
    end.
Proof. destruct value as [[|c s]|]; reflexivity. Qed.

Lemma flagLine_truthyb (line : string) (flag : option bool) :
  flagLine line flag = if Js.truthyb flag then [line] else [].
Proof. destruct flag as [[|]|]; reflexivity. Qed.

(** X12. The style lines tell the fields apart: two styles that compile to
    the same lines have the same fields set, with the same values. *)
Theorem style_lines_determine_fields (style1 style2 : TextStyle) :
  styleParts style1 = styleParts style2 -> setFields style1 = setFields style2.
Proof.
  rewrite !styleParts_perFieldLines. unfold perFieldLines, setFields.
  rewrite !fieldLine_setText, !flagLine_truthyb.
  intros H. pose proof (f_equal (map lineKey) H) as Hkeys.
  destruct (setText (font style1)), (setText (size style1)),
    (setText (color style1)), (Js.truthyb (bold style1)),
    (Js.truthyb (italic style1));
  destruct (setText (font style2)), (setText (size style2)),
    (setText (color style2)), (Js.truthyb (bold style2)),
    (Js.truthyb (italic style2));
  try (cbn in Hkeys; discriminate Hkeys);
  cbn in H; congruence.
Qed.

Lemma style_lines_determine_fields_witness :
  setFields {| font := Some "Arial"; size := Some EmptyString; color := None;
               bold := Some false; italic := Some true |}
  = setFields {| font := Some "Arial"; size := None; color := Some EmptyString;
                 bold := None; italic := Some true |}.
Proof.
  apply (style_lines_determine_fields
           {| font := Some "Arial"; size := Some EmptyString; color := None;
              bold := Some false; italic := Some true |}
           {| font := Some "Arial"; size := None; color := Some EmptyString;
              bold := None; italic := Some true |}).
  reflexivity.
Defined.

(** ** The text panel *)

Lemma truthy_Some (s : string) : Js.truthy (Some s) = true <-> s <> EmptyString.
Proof. destruct s; simpl; split; intros H; congruence. Qed.

Lemma trimmedField_not_empty (field : string) :
  TextPanel.trimmedField field <> Some EmptyString.
Proof.
  unfold TextPanel.trimmedField. destruct (Js.trim field); simpl; discriminate.
Qed.

Lemma trimmedField_none (field : string) :
  TextPanel.trimmedField field = None <-> Js.trim field = EmptyString.
Proof.
  unfold TextPanel.trimmedField.
  destruct (Js.trim field); simpl; split; intros H; congruence.
Qed.

Lemma fieldLine_trimmedField (label field : string) :
  fieldLine label (TextPanel.trimmedField field)
  = fieldLine label (Some (Js.trim field)).
Proof. unfold TextPanel.trimmedField. destruct (Js.trim field); reflexivity. Qed.

Lemma checkedFlag_none (flag : bool) :
  TextPanel.checkedFlag flag = None <-> flag = false.
Proof. destruct flag; simpl; split; intros H; congruence. Qed.

(** X13. The text panel calls [onApplyTextEdit] unless one of the two texts
    is blank or the application is loading. In the call the two texts are as
    typed, and the style holds no field with a falsy value: a style field is
    there exactly when its input is not blank, with the input trimmed, and a
    flag exactly when its box is checked. So the service compiles one style
    line for each input that was filled in, and the style is the empty one
    exactly when nothing was filled in. *)
Theorem text_panel_hands_over_set_fields (isLoading : bool) (st : TextPanel.State) :
  (TextPanel.handleApply isLoading st = None <->
     Js.trim (TextPanel.oldText st) = EmptyString
     \/ Js.trim (TextPanel.newText st) = EmptyString
     \/ isLoading = true)
  /\ (forall oldText newText style,
        TextPanel.handleApply isLoading st = Some (oldText, newText, style) ->
        oldText = TextPanel.oldText st
        /\ newText = TextPanel.newText st
        /\ font style <> Some EmptyString
        /\ size style <> Some EmptyString
        /\ color style <> Some EmptyString
        /\ bold style <> Some false
        /\ italic style <> Some false
        /\ styleParts style
           = perFieldLines
               {| font := Some (Js.trim (TextPanel.font st));
                  size := Some (Js.trim (TextPanel.size st));
                  color := Some (Js.trim (TextPanel.color st));
                  bold := Some (TextPanel.isBold st);
                  italic := Some (TextPanel.isItalic st) |}
        /\ (style = noStyle <->
              Js.trim (TextPanel.font st) = EmptyString
              /\ Js.trim (TextPanel.size st) = EmptyString
              /\ Js.trim (TextPanel.color st) = EmptyString
              /\ TextPanel.isBold st = false
              /\ TextPanel.isItalic st = false)).
Proof.
  unfold TextPanel.handleApply, TextPanel.canApply. split.
  - destruct (Js.trim (TextPanel.oldText st)) as [|c1 o];
      destruct (Js.trim (TextPanel.newText st)) as [|c2 n];
      destruct isLoading; simpl; split; intros H; try discriminate; auto;
      destruct H as [H | [H | H]]; discriminate.
  - intros oldText newText style.
    destruct (_ && _); [|discriminate]. intros [= <- <- <-].
    cbn [font size color bold italic].
    split; [reflexivity|]. split; [reflexivity|].
    split; [apply trimmedField_not_empty|].
    split; [apply trimmedField_not_empty|].
    split; [apply trimmedField_not_empty|].
    split; [destruct (TextPanel.isBold st); discriminate|].
    split; [destruct (TextPanel.isItalic st); discriminate|].
    split.
    + rewrite styleParts_perFieldLines. unfold perFieldLines.
      cbn [font size color bold italic].
      rewrite !fieldLine_trimmedField.
      destruct (TextPanel.isBold st), (TextPanel.isItalic st); reflexivity.
    + unfold noStyle. split.
      * intros [= Hf Hs Hc Hb Hi].
        now rewrite <- !trimmedField_none, <- !checkedFlag_none.
      * intros (Hf & Hs & Hc & Hb & Hi).
        apply trimmedField_none in Hf, Hs, Hc. apply checkedFlag_none in Hb, Hi.
        now rewrite Hf, Hs, Hc, Hb, Hi.
Qed.

Lemma text_panel_hands_over_set_fields_witness :
  styleParts
    {| font := Some "Arial"; size := None; color := None;
       bold := Some true; italic := None |}
  = ["- Font face similar to: Arial"; "- Weight: Bold"].
Proof.
  destruct (proj2 (text_panel_hands_over_set_fields false
                     {| TextPanel.oldText := "SALE"; TextPanel.newText := " SOLD";
                        TextPanel.font := " Arial "; TextPanel.size := "  ";
                        TextPanel.color := EmptyString; TextPanel.isBold := true;
                        TextPanel.isItalic := false |})
              "SALE" " SOLD"
              {| font := Some "Arial"; size := None; color := None;
                 bold := Some true; italic := None |}
              eq_refl) as (_ & _ & _ & _ & _ & _ & _ & Hlines & _).
  exact Hlines.
Defined.

(** ** The adjustment panel *)

Ltac one_control :=
  refine (conj _ (conj _ _)); simpl; intros; split;
  try reflexivity; try congruence; try discriminate.

Lemma handle_keeps_oneControl (e : AdjustmentPanel.Event) (st : AdjustmentPanel.State) :
  AdjustmentPanel.oneControl st ->
  AdjustmentPanel.oneControl (fst (AdjustmentPanel.handle e st)).
Proof.
  intros (Hpreset & Hcustom & Hcontrast).
  destruct e as [prompt | value | value | isLoading | isLoading]; simpl.
  - one_control.
  - one_control.
  - one_control.
  - unfold AdjustmentPanel.handleContrastApply.
    destruct ((AdjustmentPanel.contrast st =? 0)%Z || isLoading); simpl.
    + exact (conj Hpreset (conj Hcustom Hcontrast)).
    + one_control.
      * now apply Hpreset.
      * now apply Hcustom.
  - unfold AdjustmentPanel.handleApply.
    destruct (AdjustmentPanel.applyButtonEnabled isLoading st);
      [destruct (Js.truthy (Some (AdjustmentPanel.activePrompt st)))|];
      exact (conj Hpreset (conj Hcustom Hcontrast)).
Qed.

Lemma play_keeps_oneControl (events : list AdjustmentPanel.Event)
    (st : AdjustmentPanel.State) :
  AdjustmentPanel.oneControl st ->
  AdjustmentPanel.oneControl (fst (AdjustmentPanel.play events st)).
Proof.
  revert st. induction events as [|e events IH]; intros st H; [exact H|].
  simpl. pose proof (handle_keeps_oneControl e st H) as He.
  destruct (AdjustmentPanel.handle e st) as [st' calls]. simpl in He.
  specialize (IH st' He).
  destruct (AdjustmentPanel.play events st') as [st'' calls']. exact IH.
Qed.

(** X14. The adjustment panel never holds two choices at once: after any
    sequence of clicks on a preset, edits of the custom text, moves and
    releases of the contrast slider and clicks on the apply button, at most
    one of the preset, the custom text and the contrast holds a value. *)
Theorem one_control_at_a_time (events : list AdjustmentPanel.Event) :
  AdjustmentPanel.oneControl
    (fst (AdjustmentPanel.play events AdjustmentPanel.initial)).
Proof.
  apply play_keeps_oneControl. one_control.
Qed.

Lemma digits_without_sign (d : Decimal.uint) :
  without "-" (NilEmpty.string_of_uint d).
Proof.
  unfold without.
  induction d; simpl; [intros [] | ..]; intros [H|H]; try discriminate; auto.
Qed.

Lemma showInteger_without_sign (n : Z) : (0 <= n)%Z -> without "-" (showInteger n).
Proof.
  intros Hn. unfold showInteger.
  destruct n as [|p|p]; [unfold without; simpl; intuition discriminate | | lia].
  simpl. unfold NilZero.string_of_uint.
  destruct (Pos.to_uint p) eqn:Hp;
    [unfold without; simpl; intuition discriminate | rewrite <- Hp ..];
    apply digits_without_sign.
Qed.

(** X15. Releasing the contrast slider sends an adjustment unless the
    contrast is 0 or the application is loading. The adjustment asks to
    increase the contrast when the slider stands above 0 and to decrease it
    when it stands below, by the distance of the slider from 0, written
    without sign. The slider is then back at 0, so that releasing it again
    sends nothing. *)
Theorem contrast_release (isLoading : bool) (st : AdjustmentPanel.State) :
  (snd (AdjustmentPanel.handleContrastApply isLoading st) = [] <->
     AdjustmentPanel.contrast st = 0%Z \/ isLoading = true)
  /\ (AdjustmentPanel.contrast st <> 0%Z -> isLoading = false ->
      snd (AdjustmentPanel.handleContrastApply isLoading st)
      = [(if (0 <? AdjustmentPanel.contrast st)%Z then "Increase" else "Decrease")
           ++ " contrast by "
           ++ showInteger (Z.abs (AdjustmentPanel.contrast st)) ++ "%"]
      /\ without "-" (showInteger (Z.abs (AdjustmentPanel.contrast st)))
      /\ forall again,
           snd (AdjustmentPanel.handleContrastApply again
                  (fst (AdjustmentPanel.handleContrastApply isLoading st)))
           = []).
Proof.
  unfold AdjustmentPanel.handleContrastApply. split.
  - destruct (Z.eqb_spec (AdjustmentPanel.contrast st) 0) as [H0|H0];
      destruct isLoading; simpl; split; intros H; auto; try discriminate.
    destruct H as [H|H]; [contradiction | discriminate].
  - intros H0 ->. apply Z.eqb_neq in H0 as Hb. rewrite Hb. simpl.
    split; [|split].
    + destruct (Z.ltb_spec 0 (AdjustmentPanel.contrast st)) as [Hpos|Hneg].
      * now rewrite Z.abs_eq by lia.
      * now rewrite Z.abs_neq by lia.
    + apply showInteger_without_sign, Z.abs_nonneg.
    + intros again. reflexivity.
Qed.

Lemma contrast_release_witness :
  snd (AdjustmentPanel.handleContrastApply false
         {| AdjustmentPanel.selectedPresetPrompt := None;
            AdjustmentPanel.customPrompt := EmptyString;
            AdjustmentPanel.contrast := -20 |})
  = ["Decrease contrast by 20%"].
Proof.
  apply (proj2 (contrast_release false
                  {| AdjustmentPanel.selectedPresetPrompt := None;
                     AdjustmentPanel.customPrompt := EmptyString;
                     AdjustmentPanel.contrast := -20 |}));
    [discriminate | reflexivity].
Defined.

Lemma apply_after_custom (isLoading : bool) (value : string) (st : AdjustmentPanel.State) :
  snd (AdjustmentPanel.play
         [AdjustmentPanel.CustomChange value; AdjustmentPanel.ApplyClick isLoading] st)
  = if negb isLoading && Js.truthy (Some (Js.trim value)) then [value] else [].
Proof.
  cbn [AdjustmentPanel.play AdjustmentPanel.handle AdjustmentPanel.handleCustomChange].
  unfold AdjustmentPanel.applyButtonEnabled, AdjustmentPanel.handleApply,
    AdjustmentPanel.activePrompt, Js.orElse.
  cbn [AdjustmentPanel.selectedPresetPrompt AdjustmentPanel.customPrompt Js.truthy].
  destruct value as [|c value]; [destruct isLoading; reflexivity|].
  cbn [Js.truthy andb].
  destruct isLoading; [reflexivity|].
  destruct (Js.trim (String c value)); reflexivity.
Qed.

(** X16. A click on the apply button, which is there only when a prompt is
    active and is disabled while the application is loading or when the
    active prompt is blank, sends the last choice made, whatever the panel
    held before: after a click on one of the presets, the prompt of that
    preset; after an edit of the custom text, that text as typed when it is
    not blank and nothing when it is blank; after a move of the contrast
    slider, nothing. While the application is loading it sends nothing. *)
Theorem last_choice_is_applied (st : AdjustmentPanel.State) :
  (forall name prompt, In (name, prompt) AdjustmentPanel.presets ->
     snd (AdjustmentPanel.play
            [AdjustmentPanel.PresetClick prompt; AdjustmentPanel.ApplyClick false] st)
     = [prompt])
  /\ (forall value, Js.trim value <> EmptyString ->
     snd (AdjustmentPanel.play
            [AdjustmentPanel.CustomChange value; AdjustmentPanel.ApplyClick false] st)
     = [value])
  /\ (forall value, Js.trim value = EmptyString ->
     snd (AdjustmentPanel.play
            [AdjustmentPanel.CustomChange value; AdjustmentPanel.ApplyClick false] st)
     = [])
  /\ (forall value isLoading,
     snd (AdjustmentPanel.play
            [AdjustmentPanel.ContrastChange value; AdjustmentPanel.ApplyClick isLoading] st)
     = [])
  /\ snd (AdjustmentPanel.handle (AdjustmentPanel.ApplyClick true) st) = [].
Proof.
  split; [|split; [|split; [|split]]].
  - intros name prompt Hin. simpl in Hin.
    destruct Hin as [H | [H | [H | [H | []]]]]; injection H as <- <-;
      vm_compute; reflexivity.
  - intros value Hvalue. rewrite apply_after_custom.
    now rewrite (truthy_nonempty _ Hvalue).
  - intros value Hvalue. rewrite apply_after_custom. now rewrite Hvalue.
  - intros value isLoading. destruct isLoading; reflexivity.
  - cbn [AdjustmentPanel.handle]. unfold AdjustmentPanel.applyButtonEnabled.
    cbn [orb negb]. rewrite andb_false_r. reflexivity.
Qed.

Lemma last_choice_is_applied_witness :
  snd (AdjustmentPanel.play
         [AdjustmentPanel.CustomChange " make it foggy"; AdjustmentPanel.ApplyClick false]
         {| AdjustmentPanel.selectedPresetPrompt :=
              Some "Add dramatic, professional studio lighting to the main subject.";
            AdjustmentPanel.customPrompt := EmptyString;
            AdjustmentPanel.contrast := 0 |})
  = [" make it foggy"]
  /\ snd (AdjustmentPanel.play
            [AdjustmentPanel.CustomChange "  "; AdjustmentPanel.ApplyClick false]
            AdjustmentPanel.initial)
     = [].
Proof.
  split.
  - apply (proj1 (proj2 (last_choice_is_applied
                           {| AdjustmentPanel.selectedPresetPrompt :=
                                Some "Add dramatic, professional studio lighting to the main subject.";
                              AdjustmentPanel.customPrompt := EmptyString;
                              AdjustmentPanel.contrast := 0 |}))).
    discriminate.
  - apply (proj1 (proj2 (proj2 (last_choice_is_applied AdjustmentPanel.initial)))).
    reflexivity.
Defined.

(** ** The color picker of the text panel *)


(** ** Failures of the classifier *)

(** X18. Every failure of [handleApiResponse] is an [Error]; and unless the
    response was blocked, its message names the context label of the
    operation. The message of a blocked request gives the reason of the
    block and not the label. *)
Theorem failures_name_the_context
    (response : GenerateContentResponse) (context : string) (e : Thrown) :
  handleApiResponse response context = Throw e ->
  exists message,
    e = Error message
    /\ (Js.truthy (promptFeedback response ?. blockReason) = false ->
        Js.includes message context = true)
    /\ (Js.truthy (promptFeedback response ?. blockReason) = true ->
        message = "Request was blocked. Reason: "
                    ++ Js.tpl (promptFeedback response ?. blockReason) ++ ". "
                    ++ Js.orElse (promptFeedback response ?. blockReasonMessage)
                         EmptyString).
Proof.
  unfold handleApiResponse.
  destruct (Js.truthy (promptFeedback response ?. blockReason)).
  - intros [= <-]. eexists. split; [reflexivity|]. split; [discriminate | reflexivity].
  - destruct (match responseParts response with
              | Some ps => firstInlineData ps
              | None => None
              end); [discriminate|].
    cbv zeta. destruct (_ && _);
      match goal with
      | |- Throw (Error ?m) = Throw e -> _ =>
          intros H; exists m; split; [congruence|]
      end;
      (split; [intros _ | discriminate]); find_in_pieces.
Qed.

Lemma failures_name_the_context_witness :
  exists message,
    Error "Image generation for adjustment stopped unexpectedly. Reason: SAFETY. This often relates to safety settings."
    = Error message
    /\ Js.includes message "adjustment" = true.
Proof.
  destruct (failures_name_the_context (finishedWith (Some "SAFETY") None)
              "adjustment" _ eq_refl) as (message & Heq & Hnames & _).
  exists message. split; [exact Heq | exact (Hnames eq_refl)].
Defined.
